(** * django-configurations: the value resolution engine

    A shallow embedding of [configurations/values.py] (the [Value]
    descriptor family and [setup_value]) and of the injection sequence of
    [configurations/importer.py] ([exec_module] of the loader that
    [wrap_loader] installs), with the properties the specification states
    about them.

    Conventions of the embedding:
    - Python [str] is [string]; the text model is ASCII (code points below
      128), which is what environment-variable names and the literals of
      the module use.
    - [os.environ] and the attribute table of a module are finite maps
      ([gmap string _]).
    - A descriptor object is a record of its class and instance
      attributes; a method is chosen by the class, as Python's method
      resolution does.
    - Code that mutates an object and may raise is a computation in the
      monad [ST]: it threads the object, returns a value or an exception,
      and logs every membership test on [os.environ].
    - Services of the interpreter, of Django and of the operating system
      ([ast.literal_eval], [import_string], [os.path.expanduser], ...) are
      fields of a [world].

    The file has two parts: the embedding and the notions used to state
    properties first, then the properties. *)

From Stdlib Require Import ZArith Ascii String List Bool Lia.
From stdpp Require Import gmap strings.
Import ListNotations.

Local Open Scope Z_scope.
Set Warnings "-register-all".

(* ===================================================================== *)
(** * Python text operations *)
(* ===================================================================== *)

Module Str.

Definition code (c : ascii) : N := N_of_ascii c.

(** [str.isspace] on one ASCII character: TAB..CR, FS..US and the
    space. *)
Definition isspace (c : ascii) : bool :=
  let n := code c in
  ((9 <=? n) && (n <=? 13) || (28 <=? n) && (n <=? 32))%N.

Definition isupper (c : ascii) : bool :=
  let n := code c in ((65 <=? n) && (n <=? 90))%N.

Definition islower (c : ascii) : bool :=
  let n := code c in ((97 <=? n) && (n <=? 122))%N.

Definition lower_char (c : ascii) : ascii :=
  if isupper c then ascii_of_N (code c + 32) else c.

Definition upper_char (c : ascii) : ascii :=
  if islower c then ascii_of_N (code c - 32) else c.

Fixpoint map (f : ascii -> ascii) (s : string) : string :=
  match s with
  | EmptyString => EmptyString
  | String c s' => String (f c) (map f s')
  end.

(** [str.lower] and [str.upper]. *)
Definition lower : string -> string := map lower_char.
Definition upper : string -> string := map upper_char.

Fixpoint lstrip (s : string) : string :=
  match s with
  | EmptyString => EmptyString
  | String c s' => if isspace c then lstrip s' else s
  end.

Fixpoint rstrip (s : string) : string :=
  match s with
  | EmptyString => EmptyString
  | String c s' =>
      match rstrip s' with
      | EmptyString => if isspace c then EmptyString else String c EmptyString
      | r => String c r
      end
  end.

(** [str.strip()] with no argument. *)
Definition strip (s : string) : string := rstrip (lstrip s).

Definition is_empty (s : string) : bool :=
  match s with EmptyString => true | _ => false end.

(** [s.startswith(p)]. *)
Fixpoint startswith (p s : string) : bool :=
  match p, s with
  | EmptyString, _ => true
  | String a p', String b s' => if ascii_dec a b then startswith p' s' else false
  | String _ _, EmptyString => false
  end.

(** [s.endswith("_")]: the last character is an underscore. *)
Fixpoint endswith_char (c : ascii) (s : string) : bool :=
  match s with
  | EmptyString => false
  | String a EmptyString => if ascii_dec a c then true else false
  | String _ s' => endswith_char c s'
  end.

(** [s[:-1]]. *)
Fixpoint drop_last (s : string) : string :=
  match s with
  | EmptyString => EmptyString
  | String _ EmptyString => EmptyString
  | String a s' => String a (drop_last s')
  end.

Fixpoint rev_onto (s acc : string) : string :=
  match s with
  | EmptyString => acc
  | String c s' => rev_onto s' (String c acc)
  end.

Definition rev (s : string) : string := rev_onto s EmptyString.

(** The scan of [str.split(sep)] for a non-empty [sep]: [cur] is the
    current piece, reversed; [skip] counts the characters of a separator
    occurrence still to be passed over. *)
Fixpoint split_scan (sep s : string) (skip : nat) (cur : string) : list string :=
  match s with
  | EmptyString => [rev cur]
  | String c s' =>
      match skip with
      | S k => split_scan sep s' k cur
      | O =>
          if startswith sep s
          then rev cur :: split_scan sep s' (Nat.pred (String.length sep)) EmptyString
          else split_scan sep s' O (String c cur)
      end
  end.

(** [s.split(sep)]; [None] stands for the [ValueError] Python raises on
    an empty separator. *)
Definition split (sep s : string) : option (list string) :=
  if is_empty sep then None else Some (split_scan sep s O EmptyString).

(** [sep.join(items)]. *)
Fixpoint join (sep : string) (items : list string) : string :=
  match items with
  | [] => EmptyString
  | [x] => x
  | x :: rest => x +:+ sep +:+ join sep rest
  end.


End Str.

(* ===================================================================== *)
(** * Python values, exceptions and outcomes *)
(* ===================================================================== *)

(** The Python objects that settings take as values.  A [PSet] lists its
    members once each, in order of first insertion; [PObj] is any other
    object, known by an identifier only. *)
Inductive pyval : Type :=
| PNone
| PBool (b : bool)
| PInt (z : Z)
| PStr (s : string)
| PList (items : list pyval)
| PTuple (items : list pyval)
| PSet (items : list pyval)
| PDict (entries : list (pyval * pyval))
| PObj (id : string).

(** Exception classes the two modules raise, catch or let through.  All of
    them derive from [Exception]; [BaseException]-only signals
    ([KeyboardInterrupt], [SystemExit]) are not errors of a computation
    and are outside the model.  In the specification's taxonomy
    [ValueRetrievalError] is the RetrievalError, [ValueProcessingError] the
    ProcessingError and [ImproperlyConfigured] (Django's "structural
    problem" exception, raised by every constructor check of values.py)
    the ConfigurationError. *)
Inductive exc_class : Type :=
| TypeError
| ValueError
| AttributeError
| ImportError
| SyntaxError
| InvalidOperation
| ValidationError
| ImproperlyConfigured
| ValueRetrievalError
| ValueProcessingError
| ConfigurationError
| OtherException (name : string).

Global Instance exc_class_eq_dec : EqDecision exc_class.
Proof. solve_decision. Defined.

(** An exception object: its class and the base classes of that class
    that an [except] clause may name, the descriptor it was built for
    (named by its destination name), the offending input, its message, the
    exception it was raised [from], and its traceback. *)
Inductive exn : Type := mk_exn {
  exn_class : exc_class;
  exn_bases : list exc_class;
  exn_value : option string;
  exn_raw : option pyval;
  exn_msg : string;
  exn_cause : option exn;
  exn_traceback : list string
}.

Inductive outcome (A : Type) : Type :=
| Return (a : A)
| Raise (e : exn).
Arguments Return {A} a.
Arguments Raise {A} e.

Definition obind {A B} (o : outcome A) (k : A -> outcome B) : outcome B :=
  match o with
  | Return a => k a
  | Raise e => Raise e
  end.

(** [isinstance(e, classes)] for an [except (C1, ..., Cn)] clause. *)
Definition exc_isinstance (e : exn) (classes : list exc_class) : bool :=
  existsb (fun c => bool_decide (c ∈ classes)) (exn_class e :: exn_bases e).

(** The three failure kinds of the specification. *)
Inductive error_kind : Type := RetrievalError | ProcessingError | ConfigurationErrorKind.

Definition taxonomy (c : exc_class) : option error_kind :=
  match c with
  | ValueRetrievalError => Some RetrievalError
  | ValueProcessingError => Some ProcessingError
  | ImproperlyConfigured | ConfigurationError => Some ConfigurationErrorKind
  | _ => None
  end.

(** Truth value of an object ([bool(x)], [if x:], [not x]). *)
Definition truthy (v : pyval) : bool :=
  match v with
  | PNone => false
  | PBool b => b
  | PInt z => negb (z =? 0)
  | PStr s => negb (Str.is_empty s)
  | PList l | PTuple l | PSet l => match l with [] => false | _ => true end
  | PDict d => match d with [] => false | _ => true end
  | PObj _ => true
  end.

(** [x is None] *)
Definition is_None (v : pyval) : bool :=
  match v with PNone => true | _ => false end.

(** Truth value of an optional text attribute ([if self.environ_name:]). *)
Definition truthy_name (o : option string) : bool :=
  match o with
  | Some s => negb (Str.is_empty s)
  | None => false
  end.

(** The text of an optional text attribute known to be present. *)
Definition text_of (o : option string) : string :=
  match o with
  | Some s => s
  | None => EmptyString
  end.

Definition kwargs : Type := list (string * pyval).

(** Python callables handed to descriptors: per-element converters and
    validators take one argument, casters take the value and keyword
    parameters. *)
Definition converter_fn : Type := pyval -> outcome pyval.
Definition caster_fn : Type := kwargs -> pyval -> outcome pyval.
Definition validator_fn : Type := pyval -> outcome unit.

(* ===================================================================== *)
(** * The process the module runs in *)
(* ===================================================================== *)

(** What values.py takes from the interpreter and the operating system:
    the environment table, [os.path], [ast.literal_eval], the casters
    [int], [float] and [decimal.Decimal], Django's [import_string] (for
    casters and validators given by dotted path; [None] stands for
    [ImportError]), [URLValidator()] and [RegexValidator(regex=...)], and
    the argument names [getargspec] reports for a caster ([None] stands
    for its [TypeError]). *)
Record world : Type := {
  os_environ : gmap string string;
  os_path_expanduser : string -> string;
  os_path_exists : string -> bool;
  os_path_abspath : string -> string;
  ast_literal_eval : string -> outcome pyval;
  py_int : caster_fn;
  py_float : caster_fn;
  py_Decimal : caster_fn;
  import_caster : string -> option caster_fn;
  import_validator : string -> option validator_fn;
  URLValidator : validator_fn;
  RegexValidator : pyval -> validator_fn;
  getargspec : string -> option (list string)
}.

(* ===================================================================== *)
(** * Descriptors *)
(* ===================================================================== *)

(** The classes of values.py.  [BackendsValue], a [ListValue] whose
    converter checks that each item can be imported, is the [ListValue]
    with that converter. *)
Inductive pyclass : Type :=
| Value_cls
| BooleanValue
| IntegerValue
| PositiveIntegerValue
| FloatValue
| DecimalValue
| ListValue
| TupleValue
| SingleNestedListValue
| SingleNestedTupleValue
| SetValue
| DictValue
| EmailValue
| URLValue
| IPValue
| RegexValue
| PathValue
| SecretValue
| EmailURLValue
| DatabaseURLValue
| CacheURLValue
| SearchURLValue.

Global Instance pyclass_eq_dec : EqDecision pyclass.
Proof. solve_decision. Defined.

Inductive seq_type : Type := list_type | tuple_type.


Definition class_multiple (c : pyclass) : bool :=
  match c with EmailURLValue => true | _ => false end.

Definition class_late_binding (c : pyclass) : bool :=
  match c with
  | EmailURLValue | DatabaseURLValue | CacheURLValue | SearchURLValue => true
  | _ => false
  end.

Definition class_environ_name (c : pyclass) : option string :=
  match c with
  | DatabaseURLValue => Some "DATABASE_URL"
  | CacheURLValue => Some "CACHE_URL"
  | SearchURLValue => Some "SEARCH_URL"
  | _ => None
  end.

Definition is_nested (c : pyclass) : bool :=
  match c with SingleNestedListValue | SingleNestedTupleValue => true | _ => false end.

(** [caster] of the casting classes: a callable, or a dotted path. *)
Inductive caster_attr : Type :=
| CasterCallable (name : string) (f : caster_fn)
| CasterPath (path : string).

Definition class_caster (w : world) (c : pyclass) : option caster_attr :=
  match c with
  | IntegerValue | PositiveIntegerValue => Some (CasterCallable "int" (py_int w))
  | FloatValue => Some (CasterCallable "float" (py_float w))
  | DecimalValue => Some (CasterCallable "decimal.Decimal" (py_Decimal w))
  | EmailURLValue => Some (CasterPath "dj_email_url.parse")
  | DatabaseURLValue => Some (CasterPath "dj_database_url.parse")
  | CacheURLValue => Some (CasterPath "django_cache_url.parse")
  | SearchURLValue => Some (CasterPath "dj_search_url.parse")
  | _ => None
  end.

(** [exception] of [CastingMixin], overridden by [DecimalValue]. *)
Definition class_exception (c : pyclass) : list exc_class :=
  match c with
  | DecimalValue => [InvalidOperation]
  | _ => [TypeError; ValueError]
  end.

(** [validator] of the validation classes ([RegexValue] builds its own in
    [__init__]). *)
Inductive validator_attr : Type :=
| ValidatorCallable (f : validator_fn)
| ValidatorPath (path : string).

Definition class_validator (w : world) (c : pyclass) : option validator_attr :=
  match c with
  | EmailValue => Some (ValidatorPath "django.core.validators.validate_email")
  | URLValue => Some (ValidatorCallable (URLValidator w))
  | IPValue => Some (ValidatorPath "django.core.validators.validate_ipv46_address")
  | _ => None
  end.

(** A descriptor object: its class and its instance attributes.
    [_value = None] is [not hasattr(self, '_value')]. *)
Record Value : Type := mk_Value {
  cls : pyclass;
  late_binding : bool;
  default : pyval;
  environ : bool;
  environ_name : option string;
  environ_prefix : option string;
  environ_required : bool;
  destination_name : option string;
  _value : option pyval;
  separator : string;
  seq_separator : string;
  converter : option converter_fn;
  check_exists : bool;
  alias : pyval;
  _caster : option caster_fn;
  _params : kwargs;
  _validator : option validator_fn
}.

Definition multiple (self : Value) : bool := class_multiple (cls self).

Definition with_destination_name (n : option string) (v : Value) : Value :=
  mk_Value (cls v) (late_binding v) (default v) (environ v) (environ_name v)
    (environ_prefix v) (environ_required v) n (_value v) (separator v)
    (seq_separator v) (converter v) (check_exists v) (alias v) (_caster v)
    (_params v) (_validator v).

Definition with_value (x : pyval) (v : Value) : Value :=
  mk_Value (cls v) (late_binding v) (default v) (environ v) (environ_name v)
    (environ_prefix v) (environ_required v) (destination_name v) (Some x)
    (separator v) (seq_separator v) (converter v) (check_exists v) (alias v)
    (_caster v) (_params v) (_validator v).

Definition with_default (d : pyval) (v : Value) : Value :=
  mk_Value (cls v) (late_binding v) d (environ v) (environ_name v)
    (environ_prefix v) (environ_required v) (destination_name v) (_value v)
    (separator v) (seq_separator v) (converter v) (check_exists v) (alias v)
    (_caster v) (_params v) (_validator v).

(** Modelled from the spec: the error classes [ValueRetrievalError] and
    [ValueProcessingError] of configurations/errors.py, which is not
    among the sources.  The specification has each failure carry the
    originating descriptor and an explanation, and the processing error
    the raw input as well: [ValueRetrievalError(self)] and
    [ValueProcessingError(self, value[, msg])] keep the destination name
    of [self], the value and the message.  No [except] clause of the
    modelled code tests an exception built here against a base class, so
    their bases are left empty. *)
Definition retrieval_error (self : Value) : exn :=
  mk_exn ValueRetrievalError [] (destination_name self) None "" None [].

Definition processing_error (self : Value) (value : pyval) (msg : string) : exn :=
  mk_exn ValueProcessingError [] (destination_name self) (Some value) msg None [].

(** Django's [ImproperlyConfigured(msg)], possibly raised [from] a cause,
    and the built-in errors of the operations used. *)
Definition improperly_configured (msg : string) (cause : option exn) : exn :=
  mk_exn ImproperlyConfigured [] None None msg cause [].

Definition builtin_error (c : exc_class) (msg : string) : exn :=
  mk_exn c [] None None msg None [].

(* ===================================================================== *)
(** * Built-in operations on values *)
(* ===================================================================== *)

(** [for x in v]: the items a value yields when iterated. *)
Definition py_iter (v : pyval) : outcome (list pyval) :=
  match v with
  | PList l | PTuple l | PSet l => Return l
  | PDict d => Return (List.map fst d)
  | PStr s => Return (List.map (fun c => PStr (String c EmptyString)) (list_ascii_of_string s))
  | _ => Raise (builtin_error TypeError "object is not iterable")
  end.

Definition make_seq (ty : seq_type) (items : list pyval) : pyval :=
  match ty with
  | list_type => PList items
  | tuple_type => PTuple items
  end.

(** [list(v)] and [tuple(v)]. *)
Definition py_sequence (ty : seq_type) (v : pyval) : outcome pyval :=
  obind (py_iter v) (fun l => Return (make_seq ty l)).

(** [isinstance(v, list)] and [isinstance(v, tuple)]. *)
Definition isinstance_seq (ty : seq_type) (v : pyval) : bool :=
  match ty, v with
  | list_type, PList _ => true
  | tuple_type, PTuple _ => true
  | _, _ => false
  end.

(** [==] on values; [True == 1] and [False == 0] as in Python. *)
Fixpoint py_eqb (a b : pyval) {struct a} : bool :=
  let fix all2 (xs ys : list pyval) {struct xs} : bool :=
    match xs, ys with
    | [], [] => true
    | x :: xs', y :: ys' => py_eqb x y && all2 xs' ys'
    | _, _ => false
    end in
  let fix all2d (xs ys : list (pyval * pyval)) {struct xs} : bool :=
    match xs, ys with
    | [], [] => true
    | (k, x) :: xs', (k', y) :: ys' => py_eqb k k' && py_eqb x y && all2d xs' ys'
    | _, _ => false
    end in
  match a, b with
  | PNone, PNone => true
  | PBool x, PBool y => Bool.eqb x y
  | PBool x, PInt z | PInt z, PBool x => Z.b2z x =? z
  | PInt x, PInt y => x =? y
  | PStr x, PStr y => String.eqb x y
  | PList xs, PList ys | PTuple xs, PTuple ys | PSet xs, PSet ys => all2 xs ys
  | PDict xs, PDict ys => all2d xs ys
  | PObj x, PObj y => String.eqb x y
  | _, _ => false
  end.

Fixpoint hashable (v : pyval) : bool :=
  match v with
  | PList _ | PSet _ | PDict _ => false
  | PTuple l => forallb hashable l
  | _ => true
  end.

Fixpoint dedup_py (l : list pyval) : list pyval :=
  match l with
  | [] => []
  | x :: rest => x :: List.filter (fun y => negb (py_eqb x y)) (dedup_py rest)
  end.

(** [set(v)]. *)
Definition py_set (v : pyval) : outcome pyval :=
  obind (py_iter v) (fun l =>
    if forallb hashable l then Return (PSet (dedup_py l))
    else Raise (builtin_error TypeError "unhashable type")).

(** [dict(v)] for a mapping or a sequence of pairs. *)
Fixpoint pairs_of (l : list pyval) : option (list (pyval * pyval)) :=
  match l with
  | [] => Some []
  | (PList [k; x] | PTuple [k; x]) :: rest =>
      match pairs_of rest with
      | Some d => Some ((k, x) :: d)
      | None => None
      end
  | _ => None
  end.

Fixpoint dict_set (k x : pyval) (d : list (pyval * pyval)) : list (pyval * pyval) :=
  match d with
  | [] => [(k, x)]
  | (k', y) :: rest => if py_eqb k k' then (k', x) :: rest else (k', y) :: dict_set k x rest
  end.

Definition py_dict (v : pyval) : outcome pyval :=
  match v with
  | PDict d => Return (PDict d)
  | PList l | PTuple l =>
      match pairs_of l with
      | Some d =>
          if forallb (fun kv => hashable (fst kv)) d
          then Return (PDict (fold_left (fun acc kv => dict_set (fst kv) (snd kv) acc) d []))
          else Raise (builtin_error TypeError "unhashable type")
      | None => Raise (builtin_error TypeError "cannot convert dictionary update sequence")
      end
  | _ => Raise (builtin_error TypeError "object is not iterable")
  end.

(** A [str] method called on a value: [AttributeError] on anything but a
    [str]. *)
Definition as_str (v : pyval) : outcome string :=
  match v with
  | PStr s => Return s
  | _ => Raise (builtin_error AttributeError "object has no such attribute")
  end.

(** [sep.join(items)]: every item must be a [str]. *)
Fixpoint strs_of (l : list pyval) : option (list string) :=
  match l with
  | [] => Some []
  | PStr s :: rest => option_map (cons s) (strs_of rest)
  | _ => None
  end.

Definition py_join (sep : string) (v : pyval) : outcome string :=
  obind (py_iter v) (fun l =>
    match strs_of l with
    | Some ss => Return (Str.join sep ss)
    | None => Raise (builtin_error TypeError "sequence item: expected str instance")
    end).

(** [s.split(sep)]. *)
Definition py_split (sep s : string) : outcome (list string) :=
  match Str.split sep s with
  | Some parts => Return parts
  | None => Raise (builtin_error ValueError "empty separator")
  end.

Definition in_strings (s : string) (l : list string) : bool :=
  existsb (String.eqb s) l.

(* ===================================================================== *)
(** * Conversion hooks: [to_python] of every class *)
(* ===================================================================== *)

Section Conversion.

Variable w : world.

(** [Value.to_python]: the raw value, unchanged. *)
Definition Value_to_python (self : Value) (value : pyval) : outcome pyval :=
  Return value.

Definition true_values : list string := ["yes"; "y"; "true"; "1"].
Definition false_values : list string := ["no"; "n"; "false"; "0"; ""].

(** [BooleanValue.to_python]. *)
Definition BooleanValue_to_python (self : Value) (value : pyval) : outcome pyval :=
  obind (as_str value) (fun s =>
    let normalized_value := Str.lower (Str.strip s) in
    if in_strings normalized_value true_values then Return (PBool true)
    else if in_strings normalized_value false_values then Return (PBool false)
    else Raise (processing_error self value "")).

(** [CastingMixin.to_python]. *)
Definition CastingMixin_to_python (self : Value) (value : pyval) : outcome pyval :=
  match _caster self with
  | None => Raise (builtin_error AttributeError "_caster")
  | Some caster =>
      let called :=
        match _params self with
        | [] => caster [] value
        | params => caster params value
        end in
      match called with
      | Return v => Return v
      | Raise e =>
          if exc_isinstance e (class_exception (cls self))
          then Raise (processing_error self value "")
          else Raise e
      end
  end.

(** [PositiveIntegerValue.to_python]. *)
Definition PositiveIntegerValue_to_python (self : Value) (value : pyval) : outcome pyval :=
  obind (CastingMixin_to_python self value) (fun int_value =>
    match int_value with
    | PInt z =>
        if z <? 0
        then Raise (processing_error self value "Value needs to be positive or zero")
        else Return int_value
    | PBool _ => Return int_value
    | _ => Raise (builtin_error TypeError "'<' not supported")
    end).

(** The loop of [SequenceValue._convert]: the converter on each item; a
    [TypeError] or [ValueError] becomes a processing error that quotes
    the joined input (the join itself fails on an item that is not a
    [str]). *)
Fixpoint convert_loop (self : Value) (sequence : pyval) (items : list pyval)
  : outcome (list pyval) :=
  match items with
  | [] => Return []
  | value :: rest =>
      let called :=
        match converter self with
        | Some f => f value
        | None => Raise (builtin_error TypeError "'NoneType' object is not callable")
        end in
      match called with
      | Return v => obind (convert_loop self sequence rest) (fun vs => Return (v :: vs))
      | Raise e =>
          if exc_isinstance e [TypeError; ValueError]
          then obind (py_join (separator self) sequence) (fun joined =>
                 Raise (processing_error self (PStr joined) ""))
          else Raise e
      end
  end.

(** [SequenceValue._convert]. *)
Definition SequenceValue_convert (ty : seq_type) (self : Value) (sequence : pyval)
  : outcome pyval :=
  obind (py_iter sequence) (fun items =>
  obind (convert_loop self sequence items) (fun converted_values =>
  Return (make_seq ty converted_values))).

Fixpoint map_outcome {A B} (f : A -> outcome B) (l : list A) : outcome (list B) :=
  match l with
  | [] => Return []
  | x :: rest =>
      obind (f x) (fun y => obind (map_outcome f rest) (fun ys => Return (y :: ys)))
  end.

(** [items[0]] of a sequence that is not empty.  ([_convert] is only
    handed lists and tuples.) *)
Definition first_item (v : pyval) : option pyval :=
  match v with
  | PList (x :: _) | PTuple (x :: _) => Some x
  | PStr (String c _) => Some (PStr (String c EmptyString))
  | _ => None
  end.

(** [SingleNestedSequenceValue._convert]: a nested sequence is converted
    group by group, a bare one as a whole. *)
Definition SingleNestedSequenceValue_convert (ty : seq_type) (self : Value) (items : pyval)
  : outcome pyval :=
  let nested :=
    truthy items &&
    match first_item items with
    | Some x => isinstance_seq ty x
    | None => false
    end in
  if nested then
    obind (py_iter items) (fun groups =>
    obind (map_outcome (SequenceValue_convert ty self) groups) (fun converted_sequences =>
    Return (make_seq ty converted_sequences)))
  else
    obind (SequenceValue_convert ty self items) (py_sequence ty).

(** [self._convert(...)], by the class of [self]. *)
Definition _convert (ty : seq_type) (self : Value) (items : pyval) : outcome pyval :=
  if is_nested (cls self)
  then SingleNestedSequenceValue_convert ty self items
  else SequenceValue_convert ty self items.

Definition nonempty (s : string) : bool := negb (Str.is_empty s).

(** [SequenceValue.to_python]. *)
Definition SequenceValue_to_python (ty : seq_type) (self : Value) (value : pyval)
  : outcome pyval :=
  obind (as_str value) (fun s =>
  obind (py_split (separator self) (Str.strip s)) (fun parts =>
    let split_value := List.map Str.strip parts in
    let value_list := make_seq ty (List.map PStr (List.filter nonempty split_value)) in
    obind (match converter self with
           | Some _ => _convert ty self value_list
           | None => Return value_list
           end) (py_sequence ty))).

(** [SingleNestedSequenceValue.to_python]. *)
Definition SingleNestedSequenceValue_to_python (ty : seq_type) (self : Value) (value : pyval)
  : outcome pyval :=
  obind (as_str value) (fun s =>
  obind (py_split (seq_separator self) (Str.strip s)) (fun parts =>
    let split_value := List.map Str.strip parts in
    let filtered := List.filter nonempty split_value in
    obind (map_outcome (fun f => SequenceValue_to_python ty self (PStr f)) filtered)
      (fun sequence => Return (make_seq ty sequence)))).

(** [SetValue.to_python]. *)
Definition SetValue_to_python (self : Value) (value : pyval) : outcome pyval :=
  obind (SequenceValue_to_python list_type self value) py_set.

(** [ast.literal_eval(value)]: anything but a [str] is a malformed
    node. *)
Definition literal_eval (value : pyval) : outcome pyval :=
  match value with
  | PStr s => ast_literal_eval w s
  | _ => Raise (builtin_error ValueError "malformed node or string")
  end.

Definition is_dict (v : pyval) : bool :=
  match v with PDict _ => true | _ => false end.

(** [DictValue.to_python]. *)
Definition DictValue_to_python (self : Value) (value : pyval) : outcome pyval :=
  obind (Value_to_python self value) (fun value =>
    if negb (truthy value) then Return (PDict [])
    else
      match literal_eval value with
      | Raise e =>
          if exc_isinstance e [ValueError]
          then Raise (processing_error self value "")
          else Raise e
      | Return evaled_value =>
          if negb (is_dict evaled_value)
          then Raise (processing_error self value "")
          else Return evaled_value
      end).

(** [ValidationMixin.to_python]. *)
Definition ValidationMixin_to_python (self : Value) (value : pyval) : outcome pyval :=
  match _validator self with
  | None => Raise (builtin_error AttributeError "_validator")
  | Some validator =>
      match validator value with
      | Raise e =>
          if exc_isinstance e [ValidationError]
          then Raise (processing_error self value ("Validation failed: " +:+ exn_msg e))
          else Raise e
      | Return _ => Return value
      end
  end.

(** [DictBackendMixin.to_python]. *)
Definition DictBackendMixin_to_python (self : Value) (value : pyval) : outcome pyval :=
  obind (CastingMixin_to_python self value) (fun value =>
    Return (PDict [(alias self, value)])).

(** [self.to_python(value)]: the method the class of [self] resolves
    to. *)
Definition to_python (self : Value) (value : pyval) : outcome pyval :=
  match cls self with
  | Value_cls | PathValue | SecretValue => Value_to_python self value
  | BooleanValue => BooleanValue_to_python self value
  | IntegerValue | FloatValue | DecimalValue | EmailURLValue =>
      CastingMixin_to_python self value
  | PositiveIntegerValue => PositiveIntegerValue_to_python self value
  | ListValue => SequenceValue_to_python list_type self value
  | TupleValue => SequenceValue_to_python tuple_type self value
  | SingleNestedListValue => SingleNestedSequenceValue_to_python list_type self value
  | SingleNestedTupleValue => SingleNestedSequenceValue_to_python tuple_type self value
  | SetValue => SetValue_to_python self value
  | DictValue => DictValue_to_python self value
  | EmailValue | URLValue | IPValue | RegexValue => ValidationMixin_to_python self value
  | DatabaseURLValue | CacheURLValue | SearchURLValue =>
      DictBackendMixin_to_python self value
  end.

End Conversion.

(* ===================================================================== *)
(** * Methods that mutate the descriptor *)
(* ===================================================================== *)

(** A body of code that mutates an object and may raise: from the state
    of the object before to the outcome, the state after (mutations made
    before an exception stay), and the names tested against [os.environ],
    in order.  For a method of a descriptor the object is [self] ([M]);
    for the loader it is the module being filled. *)
Definition ST (S A : Type) : Type := S -> outcome A * S * list string.

Definition M (A : Type) : Type := ST Value A.

Definition ret {S A} (a : A) : ST S A := fun self => (Return a, self, []).

Definition bind {S A B} (m : ST S A) (k : A -> ST S B) : ST S B :=
  fun self =>
    match m self with
    | (Return a, self1, log1) =>
        match k a self1 with
        | (o, self2, log2) => (o, self2, log1 ++ log2)
        end
    | (Raise e, self1, log1) => (Raise e, self1, log1)
    end.

Definition get {S} : ST S S := fun self => (Return self, self, []).
Definition modify {S} (f : S -> S) : ST S unit := fun self => (Return tt, f self, []).
Definition raise {S A} (e : exn) : ST S A := fun self => (Raise e, self, []).
Definition lift {S A} (o : outcome A) : ST S A := fun self => (o, self, []).
Definition environ_lookup {S} (name : string) : ST S unit :=
  fun self => (Return tt, self, [name]).

Notation "x <- c1 ;; c2" := (bind c1 (fun x => c2))
  (at level 100, c1 at next level, right associativity).
Notation "c1 ;; c2" := (bind c1 (fun _ => c2))
  (at level 100, right associativity).

Definition result {S A} (r : outcome A * S * list string) : outcome A := fst (fst r).
Definition self_after {S A} (r : outcome A * S * list string) : S := snd (fst r).
Definition lookups {S A} (r : outcome A * S * list string) : list string := snd r.

(** [Value.full_environ_name] (a property that only reads).  With no
    explicit name and no destination name yet, [None.upper()] is an
    [AttributeError]. *)
Definition full_environ_name (self : Value) : outcome string :=
  obind
    (if truthy_name (environ_name self)
     then Return (text_of (environ_name self))
     else match destination_name self with
          | Some d => Return (Str.upper d)
          | None => Raise (builtin_error AttributeError "'NoneType' object has no attribute 'upper'")
          end)
    (fun environ_name =>
       if truthy_name (environ_prefix self)
       then Return (text_of (environ_prefix self) +:+ "_" +:+ environ_name)
       else Return environ_name).

Section Resolution.

Variable w : world.

(** [Value.setup]. *)
Definition Value_setup (name : option string) : M pyval :=
  modify (with_destination_name name) ;;
  self <- get ;;
  value <-
    (if environ self then
       full_environ_name <- lift (full_environ_name self) ;;
       environ_lookup full_environ_name ;;
       match os_environ w !! full_environ_name with
       | Some raw => lift (to_python w self (PStr raw))
       | None =>
           if environ_required self
           then raise (retrieval_error self)
           else ret (default self)
       end
     else ret (default self)) ;;
  modify (with_value value) ;;
  ret value.

(** [os.path.expanduser(value)]: [os.fspath] rejects what is not a
    path. *)
Definition expanduser (value : pyval) : outcome string :=
  match value with
  | PStr s => Return (os_path_expanduser w s)
  | _ => Raise (builtin_error TypeError "expected str, bytes or os.PathLike object")
  end.

(** [PathValue.setup]. *)
Definition PathValue_setup (name : option string) : M pyval :=
  value <- Value_setup name ;;
  self <- get ;;
  value <- lift (expanduser value) ;;
  if check_exists self && negb (os_path_exists w value)
  then raise (processing_error self (PStr value) ("Path " +:+ value +:+ " does not exist"))
  else ret (PStr (os_path_abspath w value)).

(** [SecretValue.setup]. *)
Definition SecretValue_setup (name : option string) : M pyval :=
  value <- Value_setup name ;;
  self <- get ;;
  if negb (truthy value)
  then raise (retrieval_error self)
  else ret value.

(** [self.setup(name)], by the class of [self]. *)
Definition setup (name : option string) : M pyval :=
  fun self =>
    match cls self with
    | PathValue => PathValue_setup name self
    | SecretValue => SecretValue_setup name self
    | _ => Value_setup name self
    end.

(** The getter of the [value] property. *)
Definition value_getter : M pyval :=
  self <- get ;;
  let value := default self in
  (match _value self with
   | None =>
       if truthy_name (environ_name self)
       then (setup (environ_name self) ;; ret tt)
       else ret tt
   | Some _ => ret tt
   end) ;;
  self <- get ;;
  ret (match _value self with
       | Some v => v
       | None => value
       end).

(** [actual_value.items()]. *)
Definition py_items (v : pyval) : outcome (list (pyval * pyval)) :=
  match v with
  | PDict d => Return d
  | _ => Raise (builtin_error AttributeError "object has no attribute 'items'")
  end.

(** The loop of [setup_value] over the additional outputs:
    [setattr(target, multiple_name, multiple_value)] for each; writes
    made before a failing one stay. *)
Fixpoint setattr_items (target : gmap string pyval) (items : list (pyval * pyval))
  : outcome unit * gmap string pyval :=
  match items with
  | [] => (Return tt, target)
  | (PStr multiple_name, multiple_value) :: rest =>
      setattr_items (<[multiple_name := multiple_value]> target) rest
  | _ :: _ => (Raise (builtin_error TypeError "attribute name must be string"), target)
  end.

(** [setup_value(target, name, value)]: the outcome, the attributes of
    [target] afterwards, the descriptor afterwards and the environment
    names tested. *)
Definition setup_value (target : gmap string pyval) (name : string) (value : Value)
  : outcome unit * gmap string pyval * Value * list string :=
  match setup (Some name) value with
  | (Raise e, value1, log1) => (Raise e, target, value1, log1)
  | (Return actual_value, value1, log1) =>
      match value_getter value1 with
      | (Raise e, value2, log2) => (Raise e, target, value2, log1 ++ log2)
      | (Return cached, value2, log2) =>
          let target1 := <[name := cached]> target in
          if multiple value2 then
            match py_items actual_value with
            | Raise e => (Raise e, target1, value2, log1 ++ log2)
            | Return items =>
                let '(o, target2) := setattr_items target1 items in
                (o, target2, value2, log1 ++ log2)
            end
          else (Return tt, target1, value2, log1 ++ log2)
      end
  end.

End Resolution.

(** The attributes of the target after [setup_value]. *)
Definition target_after {A B C D} (r : A * B * C * D) : B := snd (fst (fst r)).

(* ===================================================================== *)
(** * Construction: [__init__] of every class, and [__new__] *)
(* ===================================================================== *)

(** A [default] argument: a plain object, or another descriptor (given by
    its own [default] and by the object itself). *)
Inductive default_arg : Type :=
| PlainDefault (v : pyval)
| DescriptorDefault (its_default : pyval) (itself : pyval).

(** The keyword arguments of a constructor call; [None] is "not passed".
    [arg_other] holds the keyword arguments values.py does not read
    itself, from which a caster's parameters are taken. *)
Record init_args : Type := {
  arg_default : option default_arg;
  arg_environ : option bool;
  arg_environ_name : option (option string);
  arg_environ_prefix : option (option string);
  arg_environ_required : option bool;
  arg_late_binding : option bool;
  arg_separator : option string;
  arg_seq_separator : option string;
  arg_converter : option converter_fn;
  arg_check_exists : option bool;
  arg_alias : option pyval;
  arg_regex : option pyval;
  arg_other : kwargs
}.

Definition no_args : init_args :=
  Build_init_args None None None None None None None None None None None None [].

(** Keyword arguments added to a call. *)
Definition kw_default (v : pyval) (a : init_args) : init_args :=
  Build_init_args (Some (PlainDefault v)) (arg_environ a) (arg_environ_name a)
    (arg_environ_prefix a) (arg_environ_required a) (arg_late_binding a)
    (arg_separator a) (arg_seq_separator a) (arg_converter a) (arg_check_exists a)
    (arg_alias a) (arg_regex a) (arg_other a).

Definition kw_environ_name (n : string) (a : init_args) : init_args :=
  Build_init_args (arg_default a) (arg_environ a) (Some (Some n))
    (arg_environ_prefix a) (arg_environ_required a) (arg_late_binding a)
    (arg_separator a) (arg_seq_separator a) (arg_converter a) (arg_check_exists a)
    (arg_alias a) (arg_regex a) (arg_other a).


Definition kw_late_binding (b : bool) (a : init_args) : init_args :=
  Build_init_args (arg_default a) (arg_environ a) (arg_environ_name a)
    (arg_environ_prefix a) (arg_environ_required a) (Some b)
    (arg_separator a) (arg_seq_separator a) (arg_converter a) (arg_check_exists a)
    (arg_alias a) (arg_regex a) (arg_other a).

Definition kw_converter (f : converter_fn) (a : init_args) : init_args :=
  Build_init_args (arg_default a) (arg_environ a) (arg_environ_name a)
    (arg_environ_prefix a) (arg_environ_required a) (arg_late_binding a)
    (arg_separator a) (arg_seq_separator a) (Some f) (arg_check_exists a)
    (arg_alias a) (arg_regex a) (arg_other a).


(** [object.__new__(cls)]: only class attributes are there.  Attributes
    that [__init__] has not assigned yet hold the values it will give them
    by default. *)
Definition blank (c : pyclass) (late : bool) : Value :=
  mk_Value c late PNone true (class_environ_name c) None false None None
    "," ";" None true (PStr "default") None [] None.

Definition or_else {A} (o : option A) (d : A) : A :=
  match o with
  | Some a => a
  | None => d
  end.

Section Construction.

Variable w : world.

(** The [default] that [Value.__init__] stores: the argument, or a copy
    of the [default] of a descriptor passed as the argument when that is
    not [None]. *)
Definition stored_default (default_a : option default_arg) : pyval :=
  match default_a with
  | None => PNone
  | Some (PlainDefault v) => v
  | Some (DescriptorDefault its_default itself) =>
      if negb (is_None its_default) then its_default else itself
  end.

(** [Value.__init__]. *)
Definition Value_init (default_a : option default_arg) (environ_a : option bool)
    (environ_name_a environ_prefix_a : option (option string))
    (environ_required_a : option bool) (self : Value) : Value :=
  let default := stored_default default_a in
  let environ_prefix := or_else environ_prefix_a (Some "DJANGO") in
  let environ_prefix :=
    if truthy_name environ_prefix && Str.endswith_char "_" (text_of environ_prefix)
    then Some (Str.drop_last (text_of environ_prefix))
    else environ_prefix in
  mk_Value (cls self) (late_binding self) default (or_else environ_a true)
    (or_else environ_name_a None) environ_prefix (or_else environ_required_a false)
    None (_value self) (separator self) (seq_separator self) (converter self)
    (check_exists self) (alias self) (_caster self) (_params self) (_validator self).

Definition base_init (args : init_args) : Value -> Value :=
  Value_init (arg_default args) (arg_environ args) (arg_environ_name args)
    (arg_environ_prefix args) (arg_environ_required args).

(** [default not in (True, False)] *)
Definition is_boolean (v : pyval) : bool :=
  py_eqb v (PBool true) || py_eqb v (PBool false).

(** [BooleanValue.__init__]. *)
Definition BooleanValue_init (args : init_args) (self : Value) : outcome Value :=
  let self := base_init args self in
  if negb (environ_required self) && negb (is_boolean (default self))
  then Raise (improperly_configured "Default value is not a boolean value" None)
  else Return self.

Definition with_caster (f : caster_fn) (params : kwargs) (v : Value) : Value :=
  mk_Value (cls v) (late_binding v) (default v) (environ v) (environ_name v)
    (environ_prefix v) (environ_required v) (destination_name v) (_value v)
    (separator v) (seq_separator v) (converter v) (check_exists v) (alias v)
    (Some f) params (_validator v).

Fixpoint kwargs_get (name : string) (kw : kwargs) : option pyval :=
  match kw with
  | [] => None
  | (k, x) :: rest => if String.eqb k name then Some x else kwargs_get name rest
  end.

(** [{name: kwargs[name] for name in arg_names if name in kwargs}] *)
Definition select_params (arg_names : list string) (kw : kwargs) : kwargs :=
  omap (fun name => option_map (pair name) (kwargs_get name kw)) arg_names.

(** [CastingMixin.__init__], after the [__init__] of the next class has
    produced [self]. *)
Definition CastingMixin_init (args : init_args) (self : Value) : outcome Value :=
  obind
    (match class_caster w (cls self) with
     | Some (CasterPath path) =>
         match import_caster w path with
         | Some f => Return (path, f)
         | None =>
             Raise (improperly_configured ("Could not import " +:+ path)
                      (Some (builtin_error ImportError path)))
         end
     | Some (CasterCallable name f) => Return (name, f)
     | None => Raise (improperly_configured "Cannot use caster" None)
     end)
    (fun '(name, f) =>
       let params :=
         match getargspec w name with
         | Some arg_names => select_params arg_names (arg_other args)
         | None => []
         end in
       Return (with_caster f params self)).

Definition with_sequence (sep : string) (conv : option converter_fn) (v : Value) : Value :=
  mk_Value (cls v) (late_binding v) (default v) (environ v) (environ_name v)
    (environ_prefix v) (environ_required v) (destination_name v) (_value v)
    sep (seq_separator v) conv (check_exists v) (alias v)
    (_caster v) (_params v) (_validator v).

(** [SequenceValue.__init__]. *)
Definition SequenceValue_init (ty : seq_type) (args : init_args) (self : Value)
  : outcome Value :=
  let self := with_sequence (or_else (arg_separator args) ",")
                (match arg_converter args with
                 | Some f => Some f
                 | None => converter self
                 end) self in
  let self := base_init args self in
  obind (if is_None (default self) then Return (make_seq ty [])
         else py_sequence ty (default self)) (fun d =>
  let self := with_default d self in
  match converter self with
  | Some _ => obind (_convert ty self (default self)) (fun d => Return (with_default d self))
  | None => Return self
  end).

Definition with_seq_separator (sep : string) (v : Value) : Value :=
  mk_Value (cls v) (late_binding v) (default v) (environ v) (environ_name v)
    (environ_prefix v) (environ_required v) (destination_name v) (_value v)
    (separator v) sep (converter v) (check_exists v) (alias v)
    (_caster v) (_params v) (_validator v).

(** [SingleNestedSequenceValue.__init__]. *)
Definition SingleNestedSequenceValue_init (ty : seq_type) (args : init_args) (self : Value)
  : outcome Value :=
  SequenceValue_init ty args (with_seq_separator (or_else (arg_seq_separator args) ";") self).

(** [SetValue.__init__]. *)
Definition SetValue_init (args : init_args) (self : Value) : outcome Value :=
  obind (SequenceValue_init list_type args self) (fun self =>
  if is_None (default self) then Return (with_default (PSet []) self)
  else obind (py_set (default self)) (fun d => Return (with_default d self))).

(** [DictValue.__init__]. *)
Definition DictValue_init (args : init_args) (self : Value) : outcome Value :=
  let self := base_init args self in
  if is_None (default self) then Return (with_default (PDict []) self)
  else obind (py_dict (default self)) (fun d => Return (with_default d self)).

Definition with_validator (f : validator_fn) (v : Value) : Value :=
  mk_Value (cls v) (late_binding v) (default v) (environ v) (environ_name v)
    (environ_prefix v) (environ_required v) (destination_name v) (_value v)
    (separator v) (seq_separator v) (converter v) (check_exists v) (alias v)
    (_caster v) (_params v) (Some f).

(** [ValidationMixin.__init__], for the [validator] attribute given. *)
Definition ValidationMixin_init (validator : option validator_attr) (args : init_args)
    (self : Value) : outcome Value :=
  let self := base_init args self in
  obind
    (match validator with
     | Some (ValidatorPath path) =>
         match import_validator w path with
         | Some f => Return f
         | None =>
             Raise (improperly_configured ("Could not import " +:+ path)
                      (Some (builtin_error ImportError path)))
         end
     | Some (ValidatorCallable f) => Return f
     | None => Raise (improperly_configured "Cannot use validator" None)
     end)
    (fun f =>
       let self := with_validator f self in
       if truthy (default self) then
         match to_python w self (default self) with
         | Raise e =>
             if exc_isinstance e [ValueProcessingError]
             then Raise (improperly_configured (exn_msg e) (Some e))
             else Raise e
         | Return _ => Return self
         end
       else Return self).

(** [RegexValue.__init__]. *)
Definition RegexValue_init (args : init_args) (self : Value) : outcome Value :=
  let regex := or_else (arg_regex args) PNone in
  ValidationMixin_init (Some (ValidatorCallable (RegexValidator w regex))) args self.

Definition with_check_exists (b : bool) (v : Value) : Value :=
  mk_Value (cls v) (late_binding v) (default v) (environ v) (environ_name v)
    (environ_prefix v) (environ_required v) (destination_name v) (_value v)
    (separator v) (seq_separator v) (converter v) b (alias v)
    (_caster v) (_params v) (_validator v).

(** [PathValue.__init__]. *)
Definition PathValue_init (args : init_args) (self : Value) : outcome Value :=
  Return (base_init args (with_check_exists (or_else (arg_check_exists args) true) self)).

(** [SecretValue.__init__]. *)
Definition SecretValue_init (args : init_args) (self : Value) : outcome Value :=
  let self := Value_init (arg_default args) (Some true) (arg_environ_name args)
                (arg_environ_prefix args) (Some true) self in
  if negb (is_None (default self))
  then Raise (improperly_configured
                "Secret values are only allowed to be set as environment variables" None)
  else Return self.

(** The end of [EmailURLValue.__init__] and [DictBackendMixin.__init__]. *)
Definition convert_default (self : Value) : outcome Value :=
  if is_None (default self) then Return (with_default (PDict []) self)
  else obind (to_python w self (default self)) (fun d => Return (with_default d self)).

(** [EmailURLValue.__init__]. *)
Definition EmailURLValue_init (args : init_args) (self : Value) : outcome Value :=
  let self := Value_init (arg_default args)
                (Some (or_else (arg_environ args) true))
                (Some (or_else (arg_environ_name args) (Some "EMAIL_URL")))
                (Some (or_else (arg_environ_prefix args) None))
                (arg_environ_required args) self in
  obind (CastingMixin_init args self) convert_default.

Definition with_alias (a : pyval) (v : Value) : Value :=
  mk_Value (cls v) (late_binding v) (default v) (environ v) (environ_name v)
    (environ_prefix v) (environ_required v) (destination_name v) (_value v)
    (separator v) (seq_separator v) (converter v) (check_exists v) a
    (_caster v) (_params v) (_validator v).

(** [DictBackendMixin.__init__]. *)
Definition DictBackendMixin_init (args : init_args) (self : Value) : outcome Value :=
  let self := with_alias (or_else (arg_alias args) (PStr "default")) self in
  let self := Value_init (arg_default args)
                (Some (or_else (arg_environ args) true))
                (Some (or_else (arg_environ_name args) (class_environ_name (cls self))))
                (Some (or_else (arg_environ_prefix args) None))
                (arg_environ_required args) self in
  obind (CastingMixin_init args self) convert_default.

(** [instance.__init__(...)], by the class of the instance. *)
Definition init (args : init_args) (self : Value) : outcome Value :=
  match cls self with
  | Value_cls => Return (base_init args self)
  | BooleanValue => BooleanValue_init args self
  | IntegerValue | PositiveIntegerValue | FloatValue | DecimalValue =>
      CastingMixin_init args (base_init args self)
  | ListValue => SequenceValue_init list_type args self
  | TupleValue => SequenceValue_init tuple_type args self
  | SingleNestedListValue => SingleNestedSequenceValue_init list_type args self
  | SingleNestedTupleValue => SingleNestedSequenceValue_init tuple_type args self
  | SetValue => SetValue_init args self
  | DictValue => DictValue_init args self
  | EmailValue | URLValue | IPValue =>
      ValidationMixin_init (class_validator w (cls self)) args self
  | RegexValue => RegexValue_init args self
  | PathValue => PathValue_init args self
  | SecretValue => SecretValue_init args self
  | EmailURLValue => EmailURLValue_init args self
  | DatabaseURLValue | CacheURLValue | SearchURLValue => DictBackendMixin_init args self
  end.

(** What a constructor call evaluates to: a descriptor, or the value the
    descriptor resolved to inside [__new__]. *)
Inductive constructed : Type :=
| Descriptor (v : Value)
| Resolved (v : pyval).

(** [cls(...)]: [Value.__new__], then the [__init__] call that
    [type.__call__] makes when [__new__] returned an instance of the
    class.  The second component lists the environment names tested. *)
Definition construct (c : pyclass) (args : init_args) : outcome constructed * list string :=
  let late := or_else (arg_late_binding args) (class_late_binding c) in
  let instance := blank c late in
  if negb late then
    match init args instance with
    | Raise e => (Raise e, [])
    | Return instance =>
        if (environ instance && truthy_name (environ_name instance))
           || (negb (environ instance) && truthy (default instance))
        then
          match setup w (environ_name instance) instance with
          | (Return v, _, log) => (Return (Resolved v), log)
          | (Raise e, _, log) => (Raise e, log)
          end
        else (obind (init args instance) (fun i => Return (Descriptor i)), [])
    end
  else (obind (init args instance) (fun i => Return (Descriptor i)), []).

End Construction.

(* ===================================================================== *)
(** * A sample process *)
(* ===================================================================== *)

(** A concrete [world] on which the definitions are run: a few
    environment variables, [HOME=/home/app], the working directory
    [/srv/app], and a file system holding [/srv/app/static].  The paths
    used with it are already normalised, and [ast.literal_eval] is given
    on the inputs used (a dict display, a list display, a bare name, the
    empty text and an unclosed brace, the last two being syntax errors). *)
Module Sample.

Definition environ_table : gmap string string :=
  list_to_map
    [("DJANGO_DEBUG", "YES"); ("DJANGO_EMPTY", ""); ("DJANGO_HOSTS", "a, b ,c");
     ("DJANGO_MEDIA", "~/media"); ("DJANGO_OPTIONS", "{'a': 1}");
     ("DJANGO_TIMEOUT", "maybe"); ("HOME", "/home/app")].

(** [posixpath.expanduser] for [~] and [~/...]; a [~user] prefix of an
    unknown user is left as it is. *)
Definition expanduser (path : string) : string :=
  match path with
  | String "~" EmptyString => "/home/app"
  | String "~" (String "/" rest) => "/home/app/" +:+ rest
  | _ => path
  end.

Definition abspath (path : string) : string :=
  if Str.startswith "/" path then path else "/srv/app/" +:+ path.

Definition path_exists (path : string) : bool :=
  in_strings (abspath path) ["/"; "/srv"; "/srv/app"; "/srv/app/static"; "/home/app"].

Definition literal_eval (s : string) : outcome pyval :=
  if String.eqb s "{'a': 1}" then Return (PDict [(PStr "a", PInt 1)])
  else if String.eqb s "[1, 2]" then Return (PList [PInt 1; PInt 2])
  else if String.eqb s "spam" then Raise (builtin_error ValueError "malformed node or string")
  else Raise (builtin_error SyntaxError "invalid syntax").

(** [int] on the texts used. *)
Definition int (kw : kwargs) (v : pyval) : outcome pyval :=
  match v with
  | PStr "42" => Return (PInt 42)
  | PStr "-1" => Return (PInt (-1))
  | PInt z => Return (PInt z)
  | PStr _ => Raise (builtin_error ValueError "invalid literal for int()")
  | _ => Raise (builtin_error TypeError "int() argument must be a string or a number")
  end.

Definition no_caster (kw : kwargs) (v : pyval) : outcome pyval :=
  Raise (builtin_error TypeError "not available").

Definition accept_all (v : pyval) : outcome unit := Return tt.

Definition process : world := {|
  os_environ := environ_table;
  os_path_expanduser := expanduser;
  os_path_exists := path_exists;
  os_path_abspath := abspath;
  ast_literal_eval := literal_eval;
  py_int := int;
  py_float := no_caster;
  py_Decimal := no_caster;
  import_caster := fun _ => None;
  import_validator := fun _ => None;
  URLValidator := accept_all;
  RegexValidator := fun _ => accept_all;
  getargspec := fun _ => None
|}.

(** An empty environment: the same process with no variable set. *)
Definition bare : world := {|
  os_environ := ∅;
  os_path_expanduser := expanduser;
  os_path_exists := path_exists;
  os_path_abspath := abspath;
  ast_literal_eval := literal_eval;
  py_int := int;
  py_float := no_caster;
  py_Decimal := no_caster;
  import_caster := fun _ => None;
  import_validator := fun _ => None;
  URLValidator := accept_all;
  RegexValidator := fun _ => accept_all;
  getargspec := fun _ => None
|}.

End Sample.

Definition descriptor_of (r : outcome constructed * list string) : option Value :=
  match r with
  | (Return (Descriptor d), _) => Some d
  | _ => None
  end.

(* ===================================================================== *)
(** * Notions used to state the properties *)
(* ===================================================================== *)

(** The name [setup] looks up for a descriptor resolved under [name]. *)
Definition full_name (self : Value) (name : string) : string :=
  (if truthy_name (environ_prefix self)
   then text_of (environ_prefix self) +:+ "_"
   else EmptyString)
  +:+ (if truthy_name (environ_name self)
       then text_of (environ_name self)
       else Str.upper name).

(** A descriptor without the two attributes that resolution assigns. *)
Definition configuration (v : Value) : Value :=
  mk_Value (cls v) (late_binding v) (default v) (environ v) (environ_name v)
    (environ_prefix v) (environ_required v) None None
    (separator v) (seq_separator v) (converter v) (check_exists v) (alias v)
    (_caster v) (_params v) (_validator v).

(** What [PathValue.setup] makes of the value the base [setup] returned. *)
Definition path_finish (w : world) (self : Value) (value : pyval) : outcome pyval :=
  obind (expanduser w value) (fun p =>
    if check_exists self && negb (os_path_exists w p)
    then Raise (processing_error self (PStr p) ("Path " +:+ p +:+ " does not exist"))
    else Return (PStr (os_path_abspath w p))).

(** What [SecretValue.setup] makes of it. *)
Definition secret_finish (self : Value) (value : pyval) : outcome pyval :=
  if negb (truthy value) then Raise (retrieval_error self) else Return value.

(** What the class adds to the base [setup]. *)
Definition finish (w : world) (self : Value) (value : pyval) : outcome pyval :=
  match cls self with
  | PathValue => path_finish w self value
  | SecretValue => secret_finish self value
  | _ => Return value
  end.


Definition outcome_class {A} (o : outcome A) : option exc_class :=
  match o with
  | Return _ => None
  | Raise e => Some (exn_class e)
  end.




(** The full name as the specification words it: prefix, underscore and
    explicit or derived name, the whole upper-cased; no prefix and no
    underscore when the prefix is empty. *)
Definition spec_full_environ_name (self : Value) (destination : string) : string :=
  Str.upper
    ((if truthy_name (environ_prefix self)
      then text_of (environ_prefix self) +:+ "_"
      else EmptyString)
     +:+ (if truthy_name (environ_name self)
          then text_of (environ_name self)
          else Str.upper destination)).

(** The converter in force: the configured one, or none (the items stay
    as they are). *)
Definition converter_in_force (c : option converter_fn) : converter_fn :=
  match c with
  | Some f => f
  | None => Return
  end.

(** [v] is the sequence of type [ty] made of the converter's results on
    [items], in order. *)
Definition flat_converted (ty : seq_type) (f : converter_fn) (items : list pyval)
    (v : pyval) : Prop :=
  exists ys, map_outcome f items = Return ys /\ v = make_seq ty ys.



(* ===================================================================== *)
(** * The loader: [exec_module] of importer.py *)
(* ===================================================================== *)

Module Importer.

(** What calling an attribute of the configuration object returns: a
    plain object, or a descriptor. *)
Inductive called : Type :=
| CalledPlain (v : pyval)
| CalledValue (v : Value).

(** An upper-case attribute of the configuration object: a plain object,
    or a callable (which may carry the [pristine] mark) given by the
    object it is and by what calling it does. *)
Inductive attribute : Type :=
| Plain (v : pyval)
| Callable (pristine : bool) (itself : pyval) (call : outcome called).

(** The configuration class as the loader uses it: its three hooks, its
    instantiation, and [uppercase_attributes] on the instance.  The hooks
    are user code; what they do elsewhere than in the module being filled
    is not followed. *)
Record schema : Type := {
  pre_setup : outcome unit;
  cls_setup : outcome unit;
  instantiate : outcome pyval;
  uppercase_attributes : pyval -> outcome (list (string * attribute));
  post_setup : outcome unit
}.

(** Modelled from the spec: [reraise] of configurations/utils.py, which
    is not among the sources.  The specification has the exception
    caught, annotated with the qualified name of the schema, and raised
    again as a ConfigurationError chained to the original cause, whose
    traceback stays inspectable: the new exception has the annotation
    before the original message, and the original exception, untouched,
    as its cause. *)
Definition reraise (err : exn) (prefix : string) : exn :=
  mk_exn ConfigurationError [] None None (prefix +:+ ": " +:+ exn_msg err)
    (Some err) (exn_traceback err).

(** [try: body / except Exception as err: handler(err)]. *)
Definition try_except {S A} (body : ST S A) (handler : exn -> ST S A) : ST S A :=
  fun s =>
    match body s with
    | (Raise err, s1, log1) =>
        match handler err s1 with
        | (o, s2, log2) => (o, s2, log1 ++ log2)
        end
    | r => r
    end.

Section Loader.

Variable w : world.

(** [setup_value(mod, name, value)] as a step on the module. *)
Definition inject_value (name : string) (value : Value) : ST (gmap string pyval) unit :=
  fun module =>
    match setup_value w module name value with
    | (o, module1, _, log) => (o, module1, log)
    end.

(** The body of the loop over the attributes. *)
Definition inject_attribute (name : string) (value : attribute)
  : ST (gmap string pyval) unit :=
  match value with
  | Plain v => modify (insert name v)
  | Callable true itself _ => modify (insert name itself)
  | Callable false _ call =>
      value <- lift call ;;
      match value with
      | CalledValue v => inject_value name v
      | CalledPlain v => modify (insert name v)
      end
  end.

Fixpoint inject_all (attributes : list (string * attribute)) : ST (gmap string pyval) unit :=
  match attributes with
  | [] => ret tt
  | (name, value) :: rest => inject_attribute name value ;; inject_all rest
  end.

Definition cls_path (module_name class_name : string) : string :=
  module_name +:+ "." +:+ class_name.

(** The statements under [try:] in [exec_module]. *)
Definition injection (module_name class_name : string) (cls : schema)
  : ST (gmap string pyval) unit :=
  lift (pre_setup cls) ;;
  lift (cls_setup cls) ;;
  obj <- lift (instantiate cls) ;;
  attributes <- lift (uppercase_attributes cls obj) ;;
  inject_all attributes ;;
  modify (insert "CONFIGURATION" (PStr (cls_path module_name class_name))) ;;
  lift (post_setup cls).

(** [ConfigurationLoader.exec_module], after the module's own code has
    run; [found] is [getattr(mod, class_name)]. *)
Definition exec_module (module_name package class_name : string) (found : outcome schema)
  : ST (gmap string pyval) unit :=
  cls <-
    match found with
    | Return cls => ret cls
    | Raise err =>
        if exc_isinstance err [AttributeError]
        then raise (reraise err ("Couldn't find configuration '" +:+ class_name
                                 +:+ "' in module '" +:+ package +:+ "'"))
        else raise err
    end ;;
  try_except (injection module_name class_name cls)
    (fun err =>
       raise (reraise err ("Couldn't setup configuration '"
                           +:+ cls_path module_name class_name +:+ "'"))).

End Loader.

End Importer.

(* ===================================================================== *)
(** * The import hook of importer.py *)
(* ===================================================================== *)

Module Finder.

(** [ConfigurationFinder.modvar], [namevar] and [error_msg.format(var)]. *)
Definition modvar : string := "DJANGO_SETTINGS_MODULE".
Definition namevar : string := "DJANGO_CONFIGURATION".

Definition error_msg (var : string) : string :=
  "Configuration cannot be imported, environment variable " +:+ var +:+ " is undefined.".

(** A loader; [wrap_loader] gives the loader object the class
    [ConfigurationLoader], a subclass of the class it had, made for one
    class name. *)
Inductive loader : Type :=
| SourceLoader (path : string)
| ConfigurationLoader (class_name : option string) (base : loader).

Record module_spec : Type := {
  spec_name : string;
  spec_loader : loader
}.

(** An entry of [sys.meta_path]; a [ConfigurationFinder] keeps the copy of
    [sys.argv] it made. *)
Inductive finder : Type :=
| ConfigurationFinder (argv : list string)
| OtherFinder (name : string).

(** What importer.py reads and writes in the interpreter: [os.environ],
    [sys.argv], [sys.meta_path], the global [installed], how many times
    [BaseCommand.create_parser] has been wrapped, how many handlers the
    logger of the module has, and the messages given to it. *)
Record interpreter : Type := {
  environment : gmap string string;
  sys_argv : list string;
  sys_meta_path : list finder;
  installed : bool;
  create_parser_wrappers : nat;
  logger_handlers : nat;
  logged : list string
}.

Definition with_environment (env : gmap string string) (s : interpreter) : interpreter :=
  Build_interpreter env (sys_argv s) (sys_meta_path s) (installed s)
    (create_parser_wrappers s) (logger_handlers s) (logged s).

Definition wrap_create_parser (s : interpreter) : interpreter :=
  Build_interpreter (environment s) (sys_argv s) (sys_meta_path s) (installed s)
    (S (create_parser_wrappers s)) (logger_handlers s) (logged s).

Definition addHandler (s : interpreter) : interpreter :=
  Build_interpreter (environment s) (sys_argv s) (sys_meta_path s) (installed s)
    (create_parser_wrappers s) (S (logger_handlers s)) (logged s).

Definition debug (message : string) (s : interpreter) : interpreter :=
  Build_interpreter (environment s) (sys_argv s) (sys_meta_path s) (installed s)
    (create_parser_wrappers s) (logger_handlers s) (logged s ++ [message]).

Definition meta_path_insert (importer : finder) (s : interpreter) : interpreter :=
  Build_interpreter (environment s) (sys_argv s) (importer :: sys_meta_path s) (installed s)
    (create_parser_wrappers s) (logger_handlers s) (logged s).

Definition set_installed (s : interpreter) : interpreter :=
  Build_interpreter (environment s) (sys_argv s) (sys_meta_path s) true
    (create_parser_wrappers s) (logger_handlers s) (logged s).

(** The options the parser of [check_options] declares. *)
Record options : Type := {
  options_configuration : option string;
  options_settings : option string;
  options_pythonpath : option string
}.

(** [base.CommandError]. *)
Definition CommandError : exc_class := OtherException "CommandError".

(** [os.environ.get(var)]. *)
Definition environ_get (var : string) : ST interpreter (option string) :=
  fun s => (Return (environment s !! var), s, [var]).

(** The properties [module] and [name]. *)
Definition module : ST interpreter (option string) := environ_get modvar.
Definition name : ST interpreter (option string) := environ_get namevar.

(** [wrap_loader(loader, class_name)]. *)
Definition wrap_loader (l : loader) (class_name : option string) : loader :=
  ConfigurationLoader class_name l.

(** [ConfigurationFinder.validate]. *)
Definition validate : ST interpreter unit :=
  n <- name ;;
  match n with
  | None => raise (improperly_configured (error_msg namevar) None)
  | Some _ =>
      m <- module ;;
      match m with
      | None => raise (improperly_configured (error_msg modvar) None)
      | Some _ => ret tt
      end
  end.

Section Hook.

(** Django and the standard library, as far as importer.py calls them:
    [parser.parse_known_args] of the parser of [check_options] (which
    raises [CommandError] on an option error), the effect of
    [base.handle_default_options] on [os.environ], [__version__],
    [colorize(text, fg='green')], and [PathFinder.find_spec]. *)
Variable parse_known_args : list string -> outcome options.
Variable handle_default_options :
  options -> gmap string string -> outcome (gmap string string).
Variable version : option string.
Variable colorize : string -> string.
Variable PathFinder_find_spec : string -> pyval -> pyval -> option module_spec.

(** [ConfigurationFinder.check_options]. *)
Definition check_options (argv : list string) : ST interpreter unit :=
  Importer.try_except
    (options <- lift (parse_known_args (skipn 2 argv)) ;;
     (if truthy_name (options_configuration options)
      then modify (fun s =>
             with_environment
               (<[namevar := text_of (options_configuration options)]> (environment s)) s)
      else ret tt) ;;
     s <- get ;;
     env <- lift (handle_default_options options (environment s)) ;;
     modify (with_environment env))
    (fun err => if exc_isinstance err [CommandError] then ret tt else raise err).

(** ['{}'.format(self.name)] *)
Definition format_name (n : option string) : string :=
  match n with
  | Some s => s
  | None => "None"
  end.

(** [ConfigurationFinder.announce]. *)
Definition announce (argv : list string) : ST interpreter unit :=
  if (1 <? length argv)%nat then
    let stylize := if in_strings "--no-color" argv then (fun text => text) else colorize in
    if String.eqb (nth 1 argv EmptyString) "runserver" then
      run_main <- environ_get "RUN_MAIN" ;;
      match run_main with
      | Some "true" =>
          n <- name ;;
          modify (debug (stylize ("django-configurations version " +:+ text_of version
                                  +:+ ", using configuration " +:+ format_name n)))
      | _ => ret tt
      end
    else ret tt
  else ret tt.

(** [ConfigurationFinder.__init__]. *)
Definition ConfigurationFinder_init (check : bool) : ST interpreter finder :=
  s <- get ;;
  let argv := sys_argv s in
  modify addHandler ;;
  (if check then check_options argv else ret tt) ;;
  validate ;;
  (if check then announce argv else ret tt) ;;
  ret (ConfigurationFinder argv).

(** [install(check_options)]. *)
Definition install (check : bool) : ST interpreter unit :=
  s <- get ;;
  if negb (installed s) then
    modify wrap_create_parser ;;
    importer <- ConfigurationFinder_init check ;;
    modify (meta_path_insert importer) ;;
    modify set_installed
  else ret tt.

(** [ConfigurationFinder.find_spec]. *)
Definition find_spec (fullname : option string) (path target : pyval)
  : ST interpreter (option module_spec) :=
  match fullname with
  | None => ret None
  | Some fullname =>
      m <- module ;;
      if bool_decide (m = Some fullname) then
        match PathFinder_find_spec fullname path target with
        | Some spec =>
            n <- name ;;
            ret (Some (Build_module_spec (spec_name spec) (wrap_loader (spec_loader spec) n)))
        | None => ret None
        end
      else ret None
  end.

End Hook.


(** A command line parser and Django's [handle_default_options], for the
    examples. *)
Definition sample_parse (args : list string) : outcome options :=
  match args with
  | ["--configuration"; c] => Return (Build_options (Some c) None None)
  | ["--settings"; m] => Return (Build_options None (Some m) None)
  | "--verbosity" :: _ => Raise (builtin_error CommandError "unrecognized arguments")
  | _ => Return (Build_options None None None)
  end.

Definition sample_handle (o : options) (env : gmap string string)
  : outcome (gmap string string) :=
  Return (if truthy_name (options_settings o)
          then <[modvar := text_of (options_settings o)]> env
          else env).

Definition sample_find (fullname : string) (path target : pyval) : option module_spec :=
  if String.eqb fullname "mysite.settings"
  then Some (Build_module_spec fullname (SourceLoader "/srv/app/mysite/settings.py"))
  else None.

Definition fresh (env : list (string * string)) (argv : list string) : interpreter :=
  Build_interpreter (list_to_map env) argv [OtherFinder "PathFinder"] false 0 0 [].

End Finder.

(* ===================================================================== *)
(** * Further notions *)
(* ===================================================================== *)

(** A text in which the character [c] does not occur. *)
Definition free_of (c : ascii) (t : string) : Prop := ~ In c (list_ascii_of_string t).

(** A token as the sequence parser produces them, for the one-character
    separator [c]: not empty, trimmed, without the separator. *)
Definition token (c : ascii) (t : string) : Prop :=
  t <> EmptyString /\ Str.strip t = t /\ free_of c t.



(** The classes that validate, and the backend classes. *)
Definition validating_class (c : pyclass) : Prop :=
  In c [EmailValue; URLValue; IPValue; RegexValue].

Definition backend_class (c : pyclass) : Prop :=
  In c [DatabaseURLValue; CacheURLValue; SearchURLValue].

(** The variable a URL descriptor reads when the call names none. *)
Definition url_variable (c : pyclass) : option string :=
  match c with
  | EmailURLValue => Some "EMAIL_URL"
  | _ => class_environ_name c
  end.

(** The value of the last item keyed by the text [k] in the items of a
    dict. *)
Fixpoint item_for (k : string) (items : list (pyval * pyval)) : option pyval :=
  match items with
  | [] => None
  | (k', x) :: rest =>
      match item_for k rest with
      | Some y => Some y
      | None => if py_eqb k' (PStr k) then Some x else None
      end
  end.

(** A second sample process: [DATABASE_URL] and [EMAIL_URL] are set, the
    two URL parsers can be imported, and the validators reject the text
    [bad]. *)
Module Strict.

Definition parse_database (kw : kwargs) (v : pyval) : outcome pyval :=
  match v with
  | PStr s => Return (PDict [(PStr "NAME", PStr s)])
  | _ => Raise (builtin_error AttributeError "decode")
  end.

Definition parse_email (kw : kwargs) (v : pyval) : outcome pyval :=
  match v with
  | PStr s => Return (PDict [(PStr "EMAIL_HOST", PStr s); (PStr "EMAIL_PORT", PInt 25)])
  | _ => Raise (builtin_error AttributeError "decode")
  end.

Definition not_bad (v : pyval) : outcome unit :=
  if py_eqb v (PStr "bad")
  then Raise (mk_exn ValidationError [] None None "Enter a valid value." None [])
  else Return tt.

Definition process : world := {|
  os_environ := list_to_map [("DATABASE_URL", "sqlite:///db"); ("EMAIL_URL", "smtp://mail");
                             ("DJANGO_SECRET", ""); ("DJANGO_MEDIA", "~/nowhere")];
  os_path_expanduser := Sample.expanduser;
  os_path_exists := Sample.path_exists;
  os_path_abspath := Sample.abspath;
  ast_literal_eval := Sample.literal_eval;
  py_int := Sample.int;
  py_float := Sample.no_caster;
  py_Decimal := Sample.no_caster;
  import_caster := fun path =>
    if String.eqb path "dj_database_url.parse" then Some parse_database
    else if String.eqb path "dj_email_url.parse" then Some parse_email
    else None;
  import_validator := fun _ => Some not_bad;
  URLValidator := not_bad;
  RegexValidator := fun _ => not_bad;
  getargspec := fun _ => None
|}.

End Strict.

(* ===================================================================== *)
(** * The definitions at work *)
(* ===================================================================== *)

Example split_example : Str.split "," "a, b ,c" = Some ["a"; " b "; "c"].
Proof. reflexivity. Qed.

Example split_example2 : Str.split "::" "a::b:c::" = Some ["a"; "b:c"; ""].
Proof. reflexivity. Qed.

Example strip_example : Str.strip "  Yes  " = "Yes".
Proof. reflexivity. Qed.

Example boolean_from_env :
  option_map (fun d => result (setup Sample.process (Some "DEBUG") d))
    (descriptor_of (construct Sample.process BooleanValue (kw_default (PBool false) no_args)))
  = Some (Return (PBool true)).
Proof. vm_compute. reflexivity. Qed.

Example list_from_env :
  option_map (fun d => result (setup Sample.process (Some "HOSTS") d))
    (descriptor_of (construct Sample.process ListValue no_args))
  = Some (Return (PList [PStr "a"; PStr "b"; PStr "c"])).
Proof. vm_compute. reflexivity. Qed.

Example nested_parse :
  SingleNestedSequenceValue_to_python list_type (blank SingleNestedListValue false)
    (PStr "a,b;c,d")
  = Return (PList [PList [PStr "a"; PStr "b"]; PList [PStr "c"; PStr "d"]]).
Proof. vm_compute. reflexivity. Qed.

Example set_parse :
  SetValue_to_python (blank SetValue false) (PStr "a,a,b") = Return (PSet [PStr "a"; PStr "b"]).
Proof. vm_compute. reflexivity. Qed.

(* ===================================================================== *)
(** * Facts about text *)
(* ===================================================================== *)


Lemma code_bounded c : (Str.code c < 256)%N.
Proof. apply N_ascii_bounded. Qed.









Lemma append_assoc (a b c : string) : (a +:+ b) +:+ c = a +:+ (b +:+ c).
Proof.
  induction a as [|x a IH]; [reflexivity|].
  change (String x ((a +:+ b) +:+ c) = String x (a +:+ (b +:+ c))). now rewrite IH.
Qed.

Lemma upper_app a b : Str.upper (a +:+ b) = Str.upper a +:+ Str.upper b.
Proof.
  induction a as [|c a IH]; [reflexivity|].
  change (Str.upper (String c (a +:+ b)) = String (Str.upper_char c) (Str.upper a +:+ Str.upper b)).
  cbn [Str.upper Str.map]. f_equal. exact IH.
Qed.

(* ===================================================================== *)
(** * Boolean coercion *)
(* ===================================================================== *)






(* ===================================================================== *)
(** * The full environment name *)
(* ===================================================================== *)

(** The name [setup] tests is [full_name]. *)
Lemma full_environ_name_full_name (self : Value) (name : string) :
  full_environ_name (with_destination_name (Some name) self) = Return (full_name self name).
Proof.
  unfold full_environ_name.
  cbn [environ_name environ_prefix destination_name with_destination_name].
  unfold full_name.
  destruct (truthy_name (environ_name self)), (truthy_name (environ_prefix self));
    cbn [obind]; try reflexivity.
  all: now rewrite append_assoc.
Qed.

(** C5, as stated, fails: [Value(environ_name='database')] reads
    [DJANGO_database], not [DJANGO_DATABASE] (the descriptor is made
    late-bound so that it is still a descriptor after the call). *)
Lemma explicit_name_keeps_its_case :
  option_map
    (fun d => (full_environ_name (with_destination_name (Some "DB") d),
               spec_full_environ_name d "DB",
               lookups (setup Sample.bare (Some "DB") d)))
    (descriptor_of
       (construct Sample.bare Value_cls
          (kw_late_binding true (kw_environ_name "database" no_args))))
  = Some (Return "DJANGO_database", "DJANGO_DATABASE", ["DJANGO_database"]).
Proof. vm_compute. reflexivity. Qed.

(** C5, amended.  The full name is the prefix, an underscore and the name;
    prefix and underscore are left out when the prefix is empty or null.
    The name is the explicit environment name, as given, when there is one,
    and the upper-cased destination name otherwise.  Only the derived name
    is upper-cased. *)
Theorem full_environ_name_of_destination (self : Value) (name : string) :
  full_environ_name (with_destination_name (Some name) self)
  = Return
      ((if truthy_name (environ_prefix self)
        then text_of (environ_prefix self) +:+ "_"
        else EmptyString)
       +:+ (if truthy_name (environ_name self)
            then text_of (environ_name self)
            else Str.upper name)).
Proof.
  unfold full_environ_name. cbn [environ_name environ_prefix destination_name with_destination_name].
  destruct (truthy_name (environ_name self)), (truthy_name (environ_prefix self));
    cbn [obind]; try reflexivity.
  all: now rewrite append_assoc.
Qed.

Lemma upper_char_idem c : Str.upper_char (Str.upper_char c) = Str.upper_char c.
Proof. destruct c as [[] [] [] [] [] [] [] []]; reflexivity. Qed.

Lemma upper_idem s : Str.upper (Str.upper s) = Str.upper s.
Proof. induction s as [|c s IH]; cbn; [reflexivity|]. now rewrite upper_char_idem, IH. Qed.

(** The two readings agree on every descriptor whose prefix and explicit
    name are already in upper case. *)
Lemma spec_full_environ_name_agrees (self : Value) (name : string) :
  Str.upper (text_of (environ_prefix self)) = text_of (environ_prefix self) ->
  Str.upper (text_of (environ_name self)) = text_of (environ_name self) ->
  full_environ_name (with_destination_name (Some name) self)
  = Return (spec_full_environ_name self name).
Proof.
  intros Hp Hn. rewrite full_environ_name_full_name. f_equal.
  unfold full_name, spec_full_environ_name. rewrite upper_app.
  destruct (truthy_name (environ_prefix self)), (truthy_name (environ_name self));
    rewrite ?upper_app, ?Hp, ?Hn, ?upper_idem; reflexivity.
Qed.

(* ===================================================================== *)
(** * Resolution, step by step *)
(* ===================================================================== *)

Section ResolutionFacts.

Variable w : world.

(** [Value.setup] in one piece. *)
Lemma Value_setup_eq (name : string) (self : Value) :
  Value_setup w (Some name) self =
  let self1 := with_destination_name (Some name) self in
  if environ self then
    match os_environ w !! full_name self name with
    | Some raw =>
        match to_python w self1 (PStr raw) with
        | Return v => (Return v, with_value v self1, [full_name self name])
        | Raise e => (Raise e, self1, [full_name self name])
        end
    | None =>
        if environ_required self
        then (Raise (retrieval_error self1), self1, [full_name self name])
        else (Return (default self), with_value (default self) self1, [full_name self name])
    end
  else (Return (default self), with_value (default self) self1, []).
Proof.
  unfold Value_setup, bind, modify, get, lift, ret, raise, environ_lookup.
  cbn [environ with_destination_name environ_required default].
  destruct (environ self); [|reflexivity].
  rewrite full_environ_name_full_name.
  destruct (os_environ w !! full_name self name) as [raw|].
  - destruct (to_python w _ (PStr raw)); reflexivity.
  - destruct (environ_required self); reflexivity.
Qed.

(** The base [setup] succeeds exactly when it caches, and it caches what
    it returns. *)
Lemma Value_setup_caches (name : string) (self : Value) (v : pyval) :
  result (Value_setup w (Some name) self) = Return v ->
  self_after (Value_setup w (Some name) self)
  = with_value v (with_destination_name (Some name) self).
Proof.
  rewrite Value_setup_eq. cbv zeta.
  destruct (environ self).
  - destruct (os_environ w !! full_name self name) as [raw|].
    + destruct (to_python w _ (PStr raw)); cbn; intros [= <-]; reflexivity.
    + destruct (environ_required self); cbn; intros [= <-]; reflexivity.
  - cbn. intros [= <-]. reflexivity.
Qed.

Lemma Value_setup_fails (name : string) (self : Value) (e : exn) :
  result (Value_setup w (Some name) self) = Raise e ->
  self_after (Value_setup w (Some name) self) = with_destination_name (Some name) self.
Proof.
  rewrite Value_setup_eq. cbv zeta.
  destruct (environ self).
  - destruct (os_environ w !! full_name self name) as [raw|].
    + destruct (to_python w _ (PStr raw)); cbn; intros [= <-]; reflexivity.
    + destruct (environ_required self); cbn; intros [= <-]; reflexivity.
  - cbn. discriminate.
Qed.

(** [PathValue.setup] and [SecretValue.setup] run the base [setup] to
    its end first; what they add changes the outcome only. *)
Lemma PathValue_setup_eq (name : option string) (self : Value) :
  PathValue_setup w name self =
  match Value_setup w name self with
  | (Return v, self1, log) => (path_finish w self1 v, self1, log)
  | (Raise e, self1, log) => (Raise e, self1, log)
  end.
Proof.
  unfold PathValue_setup, bind, get, lift, ret, raise, path_finish.
  destruct (Value_setup w name self) as [[[v|e] self1] log]; [|reflexivity].
  destruct (expanduser w v) as [p|e]; cbn [obind]; rewrite ?app_nil_r; [|reflexivity].
  destruct (check_exists self1 && negb (os_path_exists w p)); now rewrite app_nil_r.
Qed.

Lemma SecretValue_setup_eq (name : option string) (self : Value) :
  SecretValue_setup w name self =
  match Value_setup w name self with
  | (Return v, self1, log) => (secret_finish self1 v, self1, log)
  | (Raise e, self1, log) => (Raise e, self1, log)
  end.
Proof.
  unfold SecretValue_setup, bind, get, lift, ret, raise, secret_finish.
  destruct (Value_setup w name self) as [[[v|e] self1] log]; [|reflexivity].
  destruct (negb (truthy v)); now rewrite app_nil_r.
Qed.

(** The base [setup] assigns [destination_name] and [_value] and
    nothing else. *)
Lemma Value_setup_frame (name : option string) (self : Value) :
  configuration (self_after (Value_setup w name self)) = configuration self.
Proof.
  unfold Value_setup, bind, modify, get, lift, ret, raise, environ_lookup.
  cbn [environ with_destination_name environ_required default].
  destruct (environ self); [|reflexivity].
  destruct (full_environ_name _) as [fen|e]; [|reflexivity].
  destruct (os_environ w !! fen) as [raw|].
  - destruct (to_python w _ (PStr raw)); reflexivity.
  - destruct (environ_required self); reflexivity.
Qed.

Lemma setup_eq (name : option string) (self : Value) :
  setup w name self =
  match Value_setup w name self with
  | (Return v, self1, log) => (finish w self1 v, self1, log)
  | (Raise e, self1, log) => (Raise e, self1, log)
  end.
Proof.
  pose proof (f_equal cls (Value_setup_frame name self)) as Hcls.
  cbn [cls configuration] in Hcls.
  unfold setup, finish.
  destruct (cls self) eqn:Hc;
    rewrite ?PathValue_setup_eq, ?SecretValue_setup_eq;
    destruct (Value_setup w name self) as [[[v|e] self1] log];
    cbn [self_after fst snd] in Hcls; rewrite ?Hcls; reflexivity.
Qed.

End ResolutionFacts.

(* ===================================================================== *)
(** * Required and optional variables *)
(* ===================================================================== *)


Section RequiredSemantics.

Variable w : world.
Variable self : Value.
Variable name : string.

Let self1 := with_destination_name (Some name) self.
Let looked_up := os_environ w !! full_name self name.

Lemma setup_absent_required :
  environ self = true -> environ_required self = true -> looked_up = None ->
  result (setup w (Some name) self) = Raise (retrieval_error self1).
Proof.
  intros He Hr Hl. rewrite setup_eq, Value_setup_eq. cbv zeta.
  fold looked_up. now rewrite He, Hl, Hr.
Qed.


Lemma setup_present (raw : string) :
  environ self = true -> looked_up = Some raw ->
  result (setup w (Some name) self)
  = obind (to_python w self1 (PStr raw)) (finish w self1).
Proof.
  intros He Hl. rewrite setup_eq, Value_setup_eq. cbv zeta.
  fold looked_up. rewrite He, Hl. fold self1.
  destruct (to_python w self1 (PStr raw)); reflexivity.
Qed.


Lemma to_python_plain (raw : string) :
  cls self = PathValue \/ cls self = SecretValue ->
  to_python w self1 (PStr raw) = Return (PStr raw).
Proof.
  unfold to_python. cbn [cls self1 with_destination_name].
  intros [-> | ->]; reflexivity.
Qed.

Lemma setup_present_secret (raw : string) :
  environ self = true -> looked_up = Some raw -> cls self = SecretValue ->
  result (setup w (Some name) self)
  = if Str.is_empty raw then Raise (retrieval_error self1) else Return (PStr raw).
Proof.
  intros He Hl Hs. rewrite (setup_present raw) by assumption.
  rewrite to_python_plain by now right. cbn [obind].
  unfold finish. cbn [cls self1 with_destination_name]. rewrite Hs.
  unfold secret_finish. cbn [truthy]. now destruct (Str.is_empty raw).
Qed.


End RequiredSemantics.


(* ===================================================================== *)
(** * Conversion does not depend on what resolution assigns *)
(* ===================================================================== *)










(* ===================================================================== *)
(** * What resolution does to the descriptor *)
(* ===================================================================== *)

Section Mutation.

Variable w : world.

Lemma Value_setup_destination (name : option string) (self : Value) :
  destination_name (self_after (Value_setup w name self)) = name.
Proof.
  unfold Value_setup, bind, modify, get, lift, ret, raise, environ_lookup.
  cbn [environ with_destination_name environ_required default].
  destruct (environ self); [|reflexivity].
  destruct (full_environ_name _) as [fen|e]; [|reflexivity].
  destruct (os_environ w !! fen) as [raw|].
  - destruct (to_python w _ (PStr raw)); reflexivity.
  - destruct (environ_required self); reflexivity.
Qed.

(** The class's [setup] leaves the descriptor as the base [setup] left
    it, and tests the same names. *)
Lemma setup_self_after (name : option string) (self : Value) :
  self_after (setup w name self) = self_after (Value_setup w name self)
  /\ lookups (setup w name self) = lookups (Value_setup w name self).
Proof.
  rewrite setup_eq. now destruct (Value_setup w name self) as [[[v|e] s] l].
Qed.

Lemma setup_frame (name : option string) (self : Value) :
  configuration (self_after (setup w name self)) = configuration self.
Proof.
  rewrite (proj1 (setup_self_after name self)). apply Value_setup_frame.
Qed.

(** A [setup] that returns has cached what the base [setup] returned. *)
Lemma setup_returns_cached (name : string) (self : Value) (actual : pyval) :
  result (setup w (Some name) self) = Return actual ->
  exists cached,
    result (Value_setup w (Some name) self) = Return cached
    /\ self_after (setup w (Some name) self)
       = with_value cached (with_destination_name (Some name) self)
    /\ finish w (with_value cached (with_destination_name (Some name) self)) cached
       = Return actual.
Proof.
  intros H. rewrite (proj1 (setup_self_after (Some name) self)).
  rewrite setup_eq in H.
  destruct (Value_setup w (Some name) self) as [[[v|e] s] l] eqn:Hs; [|discriminate H].
  exists v. pose proof (Value_setup_caches w name self v) as Hc.
  rewrite Hs in Hc. cbn in Hc. specialize (Hc eq_refl). subst s.
  cbn in H. cbn. auto.
Qed.

Lemma value_getter_cached (self : Value) (v : pyval) :
  _value self = Some v -> value_getter w self = (Return v, self, []).
Proof.
  intros H. unfold value_getter, bind, get, ret. cbv beta iota.
  rewrite H. cbv beta iota. now rewrite H.
Qed.



End Mutation.

(* ===================================================================== *)
(** * The destination name *)
(* ===================================================================== *)

(** C6, as stated, fails: a descriptor resolved under [FIRST] and then
    under [SECOND] has the destination name [SECOND]. *)
Lemma second_resolution_renames :
  option_map
    (fun d =>
       let d1 := self_after (setup Sample.bare (Some "FIRST") d) in
       let d2 := self_after (setup Sample.bare (Some "SECOND") d1) in
       (destination_name d, destination_name d1, destination_name d2))
    (descriptor_of (construct Sample.bare Value_cls no_args))
  = Some (None, Some "FIRST", Some "SECOND").
Proof. vm_compute. reflexivity. Qed.

Ltac invert_outcome :=
  repeat match goal with
    | H : Return _ = Return _ |- _ => injection H as H; try subst
    | H : Raise _ = Return _ |- _ => discriminate H
    | H : obind ?o _ = Return _ |- _ =>
        let x := fresh "x" in let E := fresh "E" in
        destruct o as [x|] eqn:E; cbn [obind] in H
    | H : (if ?b then _ else _) = Return _ |- _ => destruct b eqn:?
    | H : match ?x with _ => _ end = Return _ |- _ => destruct x eqn:?
    end.

(** Every [__init__] leaves [destination_name] at [None]. *)
Lemma init_destination_name (w : world) (args : init_args) (self d : Value) :
  init w args self = Return d -> destination_name d = None.
Proof.
  unfold init.
  destruct (cls self) eqn:Hcls; intros H;
    unfold BooleanValue_init, CastingMixin_init, SequenceValue_init,
      SingleNestedSequenceValue_init, SetValue_init, DictValue_init,
      ValidationMixin_init, RegexValue_init, PathValue_init, SecretValue_init,
      EmailURLValue_init, DictBackendMixin_init, SequenceValue_init, CastingMixin_init,
      ValidationMixin_init, convert_default in H;
    invert_outcome; reflexivity.
Qed.

Lemma construct_descriptor (w : world) (c : pyclass) (args : init_args) (d : Value)
    (log : list string) :
  construct w c args = (Return (Descriptor d), log) ->
  exists self, init w args self = Return d /\ cls self = c /\ log = [].
Proof.
  unfold construct. intros H.
  destruct (negb _).
  - destruct (init w args _) as [i|e] eqn:Hi; [|discriminate H].
    destruct (_ || _).
    + destruct (setup w _ i) as [[[v|e] s] l]; discriminate H.
    + destruct (init w args i) as [i2|e] eqn:Hi2; [|discriminate H].
      cbn in H. injection H as <- <-. exists i. split; [assumption|].
      split; [|reflexivity].
      (* the class of an initialised instance is the class it was made of *)
      clear Hi2 i2.
      revert Hi. unfold init. cbn [cls blank].
      destruct c; intros H;
        unfold BooleanValue_init, CastingMixin_init, SequenceValue_init,
          SingleNestedSequenceValue_init, SetValue_init, DictValue_init,
          ValidationMixin_init, RegexValue_init, PathValue_init, SecretValue_init,
          EmailURLValue_init, DictBackendMixin_init, SequenceValue_init, CastingMixin_init,
          ValidationMixin_init, convert_default in H;
        invert_outcome; reflexivity.
  - destruct (init w args _) as [i|e] eqn:Hi; [|discriminate H].
    cbn in H. injection H as <- <-. eexists. split; [exact Hi|]. split; reflexivity.
Qed.

(** C6, amended.  [destination_name] is [None] on a newly constructed
    descriptor; every [setup] assigns it the name it is given, whether or
    not it then raises, so resolving again under the same name leaves it
    and resolving under another name replaces it; reading the cached value
    of a resolved descriptor leaves it. *)
Theorem destination_name_follows_setup (w : world) :
  (forall c args d log,
      construct w c args = (Return (Descriptor d), log) -> destination_name d = None)
  /\ (forall self name, destination_name (self_after (setup w name self)) = name)
  /\ (forall self v,
      _value self = Some v ->
      destination_name (self_after (value_getter w self)) = destination_name self).
Proof.
  split; [|split].
  - intros c args d log H. apply construct_descriptor in H as (self & Hi & _).
    exact (init_destination_name w args self d Hi).
  - intros self name. rewrite (proj1 (setup_self_after w name self)).
    apply Value_setup_destination.
  - intros self v H. now rewrite (value_getter_cached w self v H).
Qed.

Lemma destination_name_follows_setup_witness :
  let d := base_init no_args (blank Value_cls false) in
  destination_name d = None
  /\ destination_name (self_after (setup Sample.bare (Some "DEBUG") d)) = Some "DEBUG".
Proof.
  intros d.
  destruct (destination_name_follows_setup Sample.bare) as (Hnew & Hset & _).
  split.
  - apply (Hnew Value_cls no_args d []). reflexivity.
  - apply Hset.
Defined.

(* ===================================================================== *)
(** * Resolving twice, and reading the cached value *)
(* ===================================================================== *)

Section Idempotence.

Variable w : world.









End Idempotence.




(* ===================================================================== *)
(** * Injection of one descriptor *)
(* ===================================================================== *)

Section Injection.

Variable w : world.
Variable target : gmap string pyval.
Variable name : string.
Variable value : Value.

Lemma setup_value_raises (e : exn) :
  result (setup w (Some name) value) = Raise e ->
  setup_value w target name value
  = (Raise e, target, self_after (setup w (Some name) value),
     lookups (setup w (Some name) value)).
Proof.
  unfold setup_value.
  destruct (setup w (Some name) value) as [[[a|e'] v1] l1]; cbn; [discriminate|].
  now intros [= ->].
Qed.

Lemma setup_value_unfold (actual cached : pyval) :
  result (setup w (Some name) value) = Return actual ->
  _value (self_after (setup w (Some name) value)) = Some cached ->
  setup_value w target name value =
  let value1 := self_after (setup w (Some name) value) in
  let log := lookups (setup w (Some name) value) in
  let target1 := <[name := cached]> target in
  if multiple value then
    match py_items actual with
    | Raise e => (Raise e, target1, value1, log)
    | Return items =>
        (fst (setattr_items target1 items), snd (setattr_items target1 items), value1, log)
    end
  else (Return tt, target1, value1, log).
Proof.
  intros Hr Hc. unfold setup_value.
  pose proof (f_equal cls (setup_frame w (Some name) value)) as Hcls.
  cbn [cls configuration] in Hcls.
  destruct (setup w (Some name) value) as [[[a|e] v1] l1]; cbn in Hr, Hc, Hcls;
    [|discriminate]. injection Hr as ->.
  rewrite (value_getter_cached w v1 cached Hc). cbv zeta.
  cbn [self_after lookups fst snd]. rewrite app_nil_r.
  unfold multiple. rewrite Hcls.
  destruct (class_multiple (cls value)); [|reflexivity].
  destruct (py_items actual); [|reflexivity].
  now destruct (setattr_items _ _).
Qed.

(** An explicit resolution tests at most one name, and so does the
    injection of a descriptor: the read that follows [setup] finds the
    cache. *)
Lemma setup_one_lookup : (length (lookups (setup w (Some name) value)) <= 1)%nat.
Proof.
  rewrite (proj2 (setup_self_after w (Some name) value)), Value_setup_eq. cbv zeta.
  destruct (environ value); [|cbn; lia].
  destruct (os_environ w !! full_name value name);
    [destruct (to_python w _ _) | destruct (environ_required value)]; cbn; lia.
Qed.

Lemma setup_value_one_lookup :
  (length (snd (setup_value w target name value)) <= 1)%nat.
Proof.
  destruct (result (setup w (Some name) value)) as [actual|e] eqn:Hr.
  - destruct (setup_returns_cached w name value actual Hr) as (cached & _ & Hs & _).
    assert (Hc : _value (self_after (setup w (Some name) value)) = Some cached)
      by now rewrite Hs.
    rewrite (setup_value_unfold actual cached Hr Hc). cbv zeta.
    destruct (multiple value); [destruct (py_items actual)|]; cbn [snd];
      apply setup_one_lookup.
  - rewrite (setup_value_raises e Hr). cbn [snd]. apply setup_one_lookup.
Qed.


End Injection.


(* ===================================================================== *)
(** * Secrets *)
(* ===================================================================== *)

Section Secrets.

Variable w : world.

Lemma SecretValue_init_config (args : init_args) (self d : Value) :
  cls self = SecretValue ->
  init w args self = Return d ->
  cls d = SecretValue /\ environ d = true /\ environ_required d = true
  /\ default d = PNone.
Proof.
  intros Hc. unfold init. rewrite Hc. unfold SecretValue_init.
  destruct (negb (is_None _)) eqn:Hn; [discriminate|].
  intros [= <-]. cbn. repeat split; try assumption.
  apply negb_false_iff in Hn. cbn in Hn.
  now destruct (stored_default (arg_default args)).
Qed.

(** C7.  [SecretValue(default=...)] with a default that is not [None]
    raises [ImproperlyConfigured], the configuration error of the
    taxonomy, in the constructor, before any look at the environment.
    A Secret descriptor that was constructed raises a
    [ValueRetrievalError] from [setup] when its variable is absent and
    when it is set to the empty text; so does the constructor when it
    resolves the descriptor itself, under an explicit name. *)
Theorem SecretValue_rejects :
  (forall args,
      is_None (stored_default (arg_default args)) = false ->
      exists e,
        construct w SecretValue args = (Raise e, [])
        /\ exn_class e = ImproperlyConfigured
        /\ taxonomy (exn_class e) = Some ConfigurationErrorKind)
  /\ (forall args d log name,
      construct w SecretValue args = (Return (Descriptor d), log) ->
      os_environ w !! full_name d name = None
      \/ os_environ w !! full_name d name = Some "" ->
      result (setup w (Some name) d)
      = Raise (retrieval_error (with_destination_name (Some name) d))
      /\ taxonomy ValueRetrievalError = Some RetrievalError)
  /\ (forall args i name,
      arg_late_binding args = None ->
      init w args (blank SecretValue false) = Return i ->
      environ_name i = Some name -> name <> "" ->
      os_environ w !! full_name i name = None
      \/ os_environ w !! full_name i name = Some "" ->
      fst (construct w SecretValue args)
      = Raise (retrieval_error (with_destination_name (Some name) i))).
Proof.
  split; [|split].
  - intros args Hd.
    exists (improperly_configured
              "Secret values are only allowed to be set as environment variables" None).
    split; [|split; reflexivity].
    unfold construct. cbn [class_late_binding].
    assert (Hi : forall late, init w args (blank SecretValue late)
             = Raise (improperly_configured
                 "Secret values are only allowed to be set as environment variables" None)).
    { intros late. unfold init. cbn [cls blank]. unfold SecretValue_init.
      cbn [default Value_init]. now rewrite Hd. }
    rewrite !Hi. now destruct (negb _).
  - intros args d log name Hc Hl. split; [|reflexivity].
    apply construct_descriptor in Hc as (self & Hi & Hcls & _).
    destruct (SecretValue_init_config args self d Hcls Hi) as (Hs & He & Hr & _).
    destruct Hl as [Hl | Hl].
    + now apply setup_absent_required.
    + now rewrite (setup_present_secret w d name "" He Hl Hs).
  - intros args i name Hlate Hi Hn Hne Hl.
    destruct (SecretValue_init_config args (blank SecretValue false) i eq_refl Hi)
      as (Hs & He & Hr & _).
    unfold construct. rewrite Hlate. cbn [or_else class_late_binding negb].
    rewrite Hi, He, Hn. cbn [andb orb truthy_name].
    assert (Ht : negb (Str.is_empty name) = true) by now destruct name.
    rewrite Ht. cbn [orb].
    assert (Hres : result (setup w (Some name) i)
                   = Raise (retrieval_error (with_destination_name (Some name) i))).
    { destruct Hl as [Hl | Hl];
        [now apply setup_absent_required
        | now rewrite (setup_present_secret w i name "" He Hl Hs)]. }
    destruct (setup w (Some name) i) as [[[v|e] s] l]; cbn in Hres; [discriminate|].
    now injection Hres as ->.
Qed.

End Secrets.

Lemma SecretValue_rejects_witness :
  fst (construct Sample.process SecretValue (kw_default (PStr "s3cr3t") no_args))
  = Raise (improperly_configured
             "Secret values are only allowed to be set as environment variables" None)
  /\ option_map (fun d => result (setup Sample.process (Some "EMPTY") d))
       (descriptor_of (construct Sample.process SecretValue no_args))
     = Some (Raise (mk_exn ValueRetrievalError [] (Some "EMPTY") None "" None []))
  /\ fst (construct Sample.process SecretValue (kw_environ_name "API_KEY" no_args))
     = Raise (mk_exn ValueRetrievalError [] (Some "API_KEY") None "" None []).
Proof.
  destruct (SecretValue_rejects Sample.process) as (Hdefault & Hsetup & Heager).
  split; [|split].
  - destruct (Hdefault (kw_default (PStr "s3cr3t") no_args) eq_refl) as (e & He & _).
    rewrite He. cbn [fst]. vm_compute in He. now injection He as <-.
  - destruct (Hsetup no_args
                (Value_init None (Some true) None None (Some true) (blank SecretValue false))
                [] "EMPTY" eq_refl (or_intror eq_refl)) as (Hr & _).
    change (Some (result (setup Sample.process (Some "EMPTY")
              (Value_init None (Some true) None None (Some true) (blank SecretValue false))))
            = Some (Raise (mk_exn ValueRetrievalError [] (Some "EMPTY") None "" None []))).
    rewrite Hr. reflexivity.
  - rewrite (Heager (kw_environ_name "API_KEY" no_args)
               (Value_init None (Some true) (Some (Some "API_KEY")) None (Some true)
                  (blank SecretValue false))
               "API_KEY" eq_refl eq_refl eq_refl ltac:(discriminate) (or_introl eq_refl)).
    reflexivity.
Defined.

(* ===================================================================== *)
(** * Dict values *)
(* ===================================================================== *)

(** C8, as stated, fails on the empty text: it is not a literal (the
    parser rejects it), yet [DictValue.to_python] does not raise; it
    returns the empty dict without calling the parser. *)
Lemma empty_text_is_an_empty_dict :
  option_map
    (fun d => (outcome_class (ast_literal_eval Sample.process ""),
               to_python Sample.process d (PStr "")))
    (descriptor_of (construct Sample.process DictValue no_args))
  = Some (Some SyntaxError, Return (PDict [])).
Proof. vm_compute. reflexivity. Qed.

Section DictValues.

Variable w : world.
Variable self : Value.

Lemma DictValue_to_python_eq (raw : string) :
  DictValue_to_python w self (PStr raw) =
  if Str.is_empty raw then Return (PDict [])
  else
    match ast_literal_eval w raw with
    | Raise e =>
        if exc_isinstance e [ValueError]
        then Raise (processing_error self (PStr raw) "")
        else Raise e
    | Return evaled_value =>
        if is_dict evaled_value then Return evaled_value
        else Raise (processing_error self (PStr raw) "")
    end.
Proof.
  unfold DictValue_to_python, Value_to_python. cbn [obind truthy literal_eval].
  destruct (Str.is_empty raw); [reflexivity|]. cbn [negb].
  destruct (ast_literal_eval w raw) as [v|e]; [|reflexivity].
  now destruct (is_dict v).
Qed.

(** An exception of the parser that is not a [ValueError] (a
    [SyntaxError], say) passes through [DictValue.to_python] as it is. *)
Lemma DictValue_to_python_passes (raw : string) (e : exn) :
  raw <> "" -> ast_literal_eval w raw = Raise e ->
  exc_isinstance e [ValueError] = false ->
  DictValue_to_python w self (PStr raw) = Raise e.
Proof.
  intros Hne Hl Hi. rewrite DictValue_to_python_eq, Hl, Hi.
  now destruct raw.
Qed.

(** C8, amended.  [DictValue.to_python] returns the empty dict for the
    empty text, without parsing it.  A text that is not empty is parsed as
    a literal: when the parser returns a dict, that dict is returned; when
    it returns anything else, and when it raises a [ValueError], a
    [ValueProcessingError] is raised. *)
Theorem DictValue_to_python_cases (raw : string) :
  (raw = "" -> DictValue_to_python w self (PStr raw) = Return (PDict []))
  /\ (raw <> "" -> forall d,
      ast_literal_eval w raw = Return (PDict d) ->
      DictValue_to_python w self (PStr raw) = Return (PDict d))
  /\ (raw <> "" -> forall v,
      ast_literal_eval w raw = Return v -> is_dict v = false ->
      DictValue_to_python w self (PStr raw) = Raise (processing_error self (PStr raw) ""))
  /\ (raw <> "" -> forall e,
      ast_literal_eval w raw = Raise e -> exc_isinstance e [ValueError] = true ->
      DictValue_to_python w self (PStr raw) = Raise (processing_error self (PStr raw) "")).
Proof.
  rewrite DictValue_to_python_eq.
  split; [|split; [|split]].
  - now intros ->.
  - intros Hne d Hl. rewrite Hl. now destruct raw.
  - intros Hne v Hl Hd. rewrite Hl, Hd. now destruct raw.
  - intros Hne e Hl Hi. rewrite Hl, Hi. now destruct raw.
Qed.

End DictValues.

Lemma DictValue_to_python_cases_witness :
  let self := blank DictValue false in
  DictValue_to_python Sample.process self (PStr "{'a': 1}")
  = Return (PDict [(PStr "a", PInt 1)])
  /\ DictValue_to_python Sample.process self (PStr "[1, 2]")
     = Raise (processing_error self (PStr "[1, 2]") "")
  /\ DictValue_to_python Sample.process self (PStr "spam")
     = Raise (processing_error self (PStr "spam") "").
Proof.
  intros self. split; [|split].
  - destruct (DictValue_to_python_cases Sample.process self "{'a': 1}") as (_ & H & _).
    apply H; [discriminate | reflexivity].
  - destruct (DictValue_to_python_cases Sample.process self "[1, 2]") as (_ & _ & H & _).
    apply (H ltac:(discriminate) (PList [PInt 1; PInt 2])); reflexivity.
  - destruct (DictValue_to_python_cases Sample.process self "spam") as (_ & _ & _ & H).
    apply (H ltac:(discriminate) (builtin_error ValueError "malformed node or string"));
      reflexivity.
Defined.

(** The parser's [SyntaxError] on an unclosed brace is not caught. *)
Example unclosed_brace :
  outcome_class (DictValue_to_python Sample.process (blank DictValue false) (PStr "{'a': 1"))
  = Some SyntaxError.
Proof. vm_compute. reflexivity. Qed.

(* ===================================================================== *)
(** * Sequence values: the default and the parsed value *)
(* ===================================================================== *)

Lemma py_iter_make_seq ty l : py_iter (make_seq ty l) = Return l.
Proof. now destruct ty. Qed.

Lemma py_sequence_make_seq ty l : py_sequence ty (make_seq ty l) = Return (make_seq ty l).
Proof. unfold py_sequence. now rewrite py_iter_make_seq. Qed.

Lemma map_outcome_Return (l : list pyval) : map_outcome Return l = Return l.
Proof. induction l as [|x l IH]; [reflexivity|]. cbn. now rewrite IH. Qed.


Lemma convert_loop_map_outcome self sequence items f ys :
  converter self = Some f ->
  convert_loop self sequence items = Return ys -> map_outcome f items = Return ys.
Proof.
  intros Hf. revert ys. induction items as [|x items IH]; intros ys H; [exact H|].
  cbn [convert_loop] in H. rewrite Hf in H. cbn [map_outcome].
  destruct (f x) as [y|e].
  - destruct (convert_loop self sequence items) as [ys'|]; [|discriminate H].
    cbn in H. injection H as <-. now rewrite (IH ys' eq_refl).
  - destruct (exc_isinstance e _); [|discriminate H].
    destruct (py_join _ _); discriminate H.
Qed.

Lemma SequenceValue_convert_flat ty self sequence f v :
  converter self = Some f ->
  SequenceValue_convert ty self sequence = Return v ->
  exists items, py_iter sequence = Return items /\ flat_converted ty f items v.
Proof.
  intros Hf H. unfold SequenceValue_convert in H.
  destruct (py_iter sequence) as [items|]; [|discriminate H]. cbn [obind] in H.
  destruct (convert_loop self sequence items) as [ys|] eqn:Hl; [|discriminate H].
  cbn in H. injection H as <-. exists items. split; [reflexivity|].
  exists ys. split; [|reflexivity]. now apply (convert_loop_map_outcome self sequence).
Qed.




Section SequenceDefaults.

Variable w : world.
Variable args : init_args.


End SequenceDefaults.





(** Defaults after construction: a tuple given to a [ListValue] with the
    converter [int]; a bare and a nested default of a
    [SingleNestedListValue]. *)
Example list_default_converted :
  option_map default
    (descriptor_of
       (construct Sample.bare ListValue
          (kw_converter (Sample.int []) (kw_default (PTuple [PStr "42"; PStr "-1"]) no_args))))
  = Some (PList [PInt 42; PInt (-1)]).
Proof. vm_compute. reflexivity. Qed.

Example nested_default_bare :
  option_map default
    (descriptor_of
       (construct Sample.bare SingleNestedListValue
          (kw_converter (Sample.int []) (kw_default (PTuple [PStr "42"; PStr "-1"]) no_args))))
  = Some (PList [PInt 42; PInt (-1)]).
Proof. vm_compute. reflexivity. Qed.

Example nested_default_nested :
  option_map default
    (descriptor_of
       (construct Sample.bare SingleNestedListValue
          (kw_converter (Sample.int [])
             (kw_default (PTuple [PList [PStr "42"]; PList [PStr "-1"; PStr "42"]]) no_args))))
  = Some (PList [PList [PInt 42]; PList [PInt (-1); PInt 42]]).
Proof. vm_compute. reflexivity. Qed.

Example list_default_rejected :
  fst (construct Sample.bare ListValue
         (kw_converter (Sample.int []) (kw_default (PList [PStr "42"; PStr "x"]) no_args)))
  = Raise (mk_exn ValueProcessingError [] None (Some (PStr "42,x")) "" None []).
Proof. vm_compute. reflexivity. Qed.

(* ===================================================================== *)
(** * The loader chains what the injection raises *)
(* ===================================================================== *)

Section LoaderFacts.

Import Importer.

Variable w : world.
Variables module_name package class_name : string.
Variable cls : schema.

Lemma exec_module_found (module : gmap string pyval) :
  exec_module w module_name package class_name (Return cls) module
  = try_except (injection w module_name class_name cls)
      (fun err =>
         raise (reraise err ("Couldn't setup configuration '"
                             +:+ cls_path module_name class_name +:+ "'"))) module.
Proof.
  unfold exec_module, bind, ret.
  now destruct (try_except _ _ module) as [[o s] l].
Qed.

(** The body under [try:] holds the whole sequence: an exception of a
    hook, of the instantiation, of the enumeration, of the injection of an
    attribute is an exception of the body. *)
Lemma injection_covers_every_step (module : gmap string pyval) (e : exn) :
  (pre_setup cls = Raise e ->
     result (injection w module_name class_name cls module) = Raise e)
  /\ (pre_setup cls = Return tt -> cls_setup cls = Raise e ->
      result (injection w module_name class_name cls module) = Raise e)
  /\ (pre_setup cls = Return tt -> cls_setup cls = Return tt ->
      instantiate cls = Raise e ->
      result (injection w module_name class_name cls module) = Raise e)
  /\ (forall obj,
      pre_setup cls = Return tt -> cls_setup cls = Return tt ->
      instantiate cls = Return obj -> uppercase_attributes cls obj = Raise e ->
      result (injection w module_name class_name cls module) = Raise e)
  /\ (forall obj attributes,
      pre_setup cls = Return tt -> cls_setup cls = Return tt ->
      instantiate cls = Return obj ->
      uppercase_attributes cls obj = Return attributes ->
      result (inject_all w attributes module) = Raise e ->
      result (injection w module_name class_name cls module) = Raise e)
  /\ (forall obj attributes,
      pre_setup cls = Return tt -> cls_setup cls = Return tt ->
      instantiate cls = Return obj ->
      uppercase_attributes cls obj = Return attributes ->
      result (inject_all w attributes module) = Return tt ->
      post_setup cls = Raise e ->
      result (injection w module_name class_name cls module) = Raise e).
Proof.
  unfold injection, bind, lift, modify.
  repeat apply conj.
  - now intros ->.
  - now intros -> ->.
  - now intros -> -> ->.
  - now intros obj -> -> -> ->.
  - intros obj attributes -> -> -> -> H.
    destruct (inject_all w attributes module) as [[[u|e'] s] l]; cbn in H; [discriminate|].
    now injection H as ->.
  - intros obj attributes -> -> -> -> H ->.
    destruct (inject_all w attributes module) as [[[u|e'] s] l]; cbn in H; [|discriminate].
    reflexivity.
Qed.

(** An exception of [setup] while an attribute is injected is an
    exception of the loop. *)
Lemma inject_all_raises (before : list (string * attribute)) (name : string)
    (value : attribute) (rest : list (string * attribute))
    (module : gmap string pyval) (e : exn) :
  result (inject_all w before module) = Return tt ->
  result (inject_attribute w name value (self_after (inject_all w before module))) = Raise e ->
  result (inject_all w (before ++ (name, value) :: rest) module) = Raise e.
Proof.
  revert module. induction before as [|[n a] before IH]; intros module Hd Hv.
  - cbn in Hv. cbn [app inject_all]. unfold bind.
    destruct (inject_attribute w name value module) as [[[u|e'] s] l]; cbn in Hv;
      [discriminate | now injection Hv as ->].
  - cbn [app inject_all] in *. unfold bind in *.
    destruct (inject_attribute w n a module) as [[[u|e'] s] l]; [|discriminate Hd].
    specialize (IH s).
    destruct (inject_all w before s) as [[[[]|e'] s'] l'] eqn:Hs; [|discriminate Hd].
    cbn in Hv. specialize (IH eq_refl Hv).
    destruct (inject_all w (before ++ (name, value) :: rest) s) as [[[u2|e2] s2] l2];
      cbn in IH; [discriminate | now injection IH as ->].
Qed.



(** When nothing under [try:] raises, [exec_module] returns. *)
Lemma exec_module_returns (module module1 : gmap string pyval) (log : list string) :
  injection w module_name class_name cls module = (Return tt, module1, log) ->
  exec_module w module_name package class_name (Return cls) module
  = (Return tt, module1, log).
Proof.
  intros H. rewrite exec_module_found. unfold try_except. now rewrite H.
Qed.

End LoaderFacts.


(* ===================================================================== *)
(** * The prefix given to the constructor *)
(* ===================================================================== *)

Lemma endswith_char_app (c : ascii) (p : string) :
  Str.endswith_char c (p +:+ String c EmptyString) = true.
Proof.
  assert (Hc : Str.endswith_char c (String c EmptyString) = true)
    by (cbn; now destruct (ascii_dec c c)).
  induction p as [|a p IH]; [exact Hc|].
  change (Str.endswith_char c (String a (p +:+ String c EmptyString)) = true).
  destruct p as [|b p]; [exact Hc | exact IH].
Qed.

Lemma drop_last_app (c : ascii) (p : string) :
  Str.drop_last (p +:+ String c EmptyString) = p.
Proof.
  induction p as [|a p IH]; [reflexivity|].
  change (Str.drop_last (String a (p +:+ String c EmptyString)) = String a p).
  destruct p as [|b p]; [reflexivity|].
  change (String a (Str.drop_last (String b p +:+ String c EmptyString)) = String a (String b p)).
  now rewrite IH.
Qed.

Lemma nonempty_app (c : ascii) (p : string) :
  Str.is_empty (p +:+ String c EmptyString) = false.
Proof. now destruct p. Qed.

(** X1.  [Value.__init__] drops one trailing underscore of the prefix:
    for a prefix [p] that does not itself end in an underscore, the
    prefixes [p] and [p_] give the same descriptor, hence the same
    environment names. *)
Theorem prefix_trailing_underscore
    (default_a : option default_arg) (environ_a : option bool)
    (environ_name_a : option (option string)) (environ_required_a : option bool)
    (self : Value) (p : string) :
  Str.endswith_char "_" p = false ->
  Value_init default_a environ_a environ_name_a (Some (Some (p +:+ "_")))
    environ_required_a self
  = Value_init default_a environ_a environ_name_a (Some (Some p)) environ_required_a self.
Proof.
  intros Hp. unfold Value_init. cbn [or_else truthy_name text_of].
  rewrite nonempty_app, endswith_char_app, drop_last_app, Hp. cbn [negb andb].
  now rewrite andb_false_r.
Qed.

Lemma prefix_trailing_underscore_witness :
  full_name (Value_init None None None (Some (Some "ACME_")) None (blank Value_cls false)) "DEBUG"
  = full_name (Value_init None None None (Some (Some "ACME")) None (blank Value_cls false)) "DEBUG".
Proof.
  change "ACME_" with ("ACME" +:+ "_").
  now rewrite (prefix_trailing_underscore None None None None (blank Value_cls false) "ACME")
    by reflexivity.
Defined.

(** Only one underscore goes: the prefix [ACME__] reads [ACME__DEBUG]. *)
Example prefix_two_underscores :
  full_name (Value_init None None None (Some (Some "ACME__")) None (blank Value_cls false)) "DEBUG"
  = "ACME__DEBUG".
Proof. reflexivity. Qed.

(* ===================================================================== *)
(** * What the constructor returns *)
(* ===================================================================== *)

Lemma Value_setup_environ_off (w : world) (name : option string) (self : Value) :
  environ self = false ->
  Value_setup w name self
  = (Return (default self), with_value (default self) (with_destination_name name self), []).
Proof.
  intros He. unfold Value_setup, bind, modify, get, lift, ret, raise, environ_lookup.
  cbn [environ with_destination_name environ_required default]. now rewrite He.
Qed.

(** X2.  A late-bound constructor call (the class is late-bound, or
    [late_binding=True] is passed) never looks at the environment and never
    evaluates to a resolved value, whatever [environ_name] and [default]
    are: it is a descriptor, or the error of [__init__]. *)
Theorem late_binding_defers (w : world) (c : pyclass) (args : init_args) :
  or_else (arg_late_binding args) (class_late_binding c) = true ->
  snd (construct w c args) = []
  /\ (forall v, fst (construct w c args) <> Return (Resolved v))
  /\ (forall d, fst (construct w c args) = Return (Descriptor d) ->
      _value d = None /\ late_binding d = true).
Proof.
  intros Hl. unfold construct. rewrite Hl. cbn [negb].
  split; [reflexivity|]. split.
  - intros v. cbn [fst]. destruct (init w args _); cbn; discriminate.
  - intros d. cbn [fst]. destruct (init w args (blank c true)) as [i|e] eqn:Hi; cbn;
      [|discriminate].
    intros [= <-]. revert Hi. unfold init. cbn [cls blank].
    destruct c; intros H;
      unfold BooleanValue_init, CastingMixin_init, SequenceValue_init,
        SingleNestedSequenceValue_init, SetValue_init, DictValue_init,
        ValidationMixin_init, RegexValue_init, PathValue_init, SecretValue_init,
        EmailURLValue_init, DictBackendMixin_init, SequenceValue_init, CastingMixin_init,
        ValidationMixin_init, convert_default in H;
      invert_outcome; split; reflexivity.
Qed.

Lemma late_binding_defers_witness :
  snd (construct Sample.process Value_cls
         (kw_late_binding true (kw_environ_name "DEBUG" no_args))) = [].
Proof.
  apply (late_binding_defers Sample.process Value_cls
           (kw_late_binding true (kw_environ_name "DEBUG" no_args))).
  reflexivity.
Defined.

(** X3.  A constructor call that is not late-bound, with environment
    lookup on and an explicit, non-empty [environ_name], resolves inside
    [__new__]: it evaluates to what [setup(environ_name)] returns, or
    raises what that raises, and is never a descriptor.  The one name it
    tests is the prefix, an underscore and [environ_name] as given. *)
Theorem explicit_name_resolves_at_once (w : world) (c : pyclass) (args : init_args)
    (i : Value) (n : string) :
  or_else (arg_late_binding args) (class_late_binding c) = false ->
  init w args (blank c false) = Return i ->
  environ i = true -> environ_name i = Some n -> n <> "" ->
  construct w c args
  = (match result (setup w (Some n) i) with
     | Return v => Return (Resolved v)
     | Raise e => Raise e
     end,
     [(if truthy_name (environ_prefix i) then text_of (environ_prefix i) +:+ "_"
       else EmptyString) +:+ n]).
Proof.
  intros Hl Hi He Hn Hne. unfold construct. rewrite Hl. cbn [negb].
  rewrite Hi, He, Hn. cbn [truthy_name andb orb].
  assert (Ht : Str.is_empty n = false) by now destruct n.
  rewrite Ht. cbn [negb orb].
  pose proof (proj2 (setup_self_after w (Some n) i)) as Hlog.
  rewrite Value_setup_eq in Hlog. cbv zeta in Hlog. rewrite He in Hlog.
  assert (Hfull : full_name i n
                  = (if truthy_name (environ_prefix i)
                     then text_of (environ_prefix i) +:+ "_" else EmptyString) +:+ n).
  { unfold full_name. rewrite Hn. cbn [truthy_name text_of]. now rewrite Ht. }
  rewrite <- Hfull.
  destruct (setup w (Some n) i) as [[[v|e] s] l]; cbn [lookups snd result fst] in *;
    subst l;
    (destruct (os_environ w !! full_name i n);
     [destruct (to_python w _ _) | destruct (environ_required i)]); reflexivity.
Qed.

Lemma explicit_name_resolves_at_once_witness :
  construct Sample.process BooleanValue
    (kw_environ_name "DEBUG" (kw_default (PBool false) no_args))
  = (Return (Resolved (PBool true)), ["DJANGO_DEBUG"]).
Proof.
  exact (explicit_name_resolves_at_once Sample.process BooleanValue
           (kw_environ_name "DEBUG" (kw_default (PBool false) no_args))
           (Value_init (Some (PlainDefault (PBool false))) None (Some (Some "DEBUG")) None None
              (blank BooleanValue false))
           "DEBUG" eq_refl eq_refl eq_refl eq_refl ltac:(discriminate)).
Defined.

(** X4.  With environment lookup off, [setup] tests no name and the base
    [setup] returns the default, whether or not a variable of the full
    name is set; and a constructor call that is not late-bound evaluates
    to the default itself when the default is truthy (for a class that
    does not override [setup]), and to no resolved value when it is
    falsy. *)
Theorem environ_off_uses_default (w : world) :
  (forall self name,
      environ self = false ->
      lookups (setup w name self) = []
      /\ result (Value_setup w name self) = Return (default self)
      /\ (cls self <> PathValue -> cls self <> SecretValue ->
          result (setup w name self) = Return (default self)))
  /\ (forall c args i,
      or_else (arg_late_binding args) (class_late_binding c) = false ->
      init w args (blank c false) = Return i ->
      environ i = false ->
      (truthy (default i) = true -> cls i <> PathValue -> cls i <> SecretValue ->
       construct w c args = (Return (Resolved (default i)), []))
      /\ (truthy (default i) = false ->
          forall v, fst (construct w c args) <> Return (Resolved v))).
Proof.
  assert (Hsetup : forall self name,
             environ self = false ->
             lookups (setup w name self) = []
             /\ result (Value_setup w name self) = Return (default self)
             /\ (cls self <> PathValue -> cls self <> SecretValue ->
                 setup w name self
                 = (Return (default self),
                    with_value (default self) (with_destination_name name self), []))).
  { intros self name He.
    rewrite (proj2 (setup_self_after w name self)), setup_eq.
    rewrite (Value_setup_environ_off w name self He). cbn [lookups result fst snd].
    repeat split. intros Hp Hs. unfold finish.
    cbn [cls with_value with_destination_name]. now destruct (cls self). }
  split.
  - intros self name He. destruct (Hsetup self name He) as (H1 & H2 & H3).
    repeat split; try assumption. intros Hp Hs. now rewrite (H3 Hp Hs).
  - intros c args i Hl Hi He. unfold construct. rewrite Hl. cbn [negb].
    rewrite Hi, He. cbn [andb negb orb]. split.
    + intros Ht Hp Hs. rewrite Ht.
      destruct (Hsetup i (environ_name i) He) as (_ & _ & H3). now rewrite (H3 Hp Hs).
    + intros Ht v. rewrite Ht. cbn [fst].
      destruct (init w args i); cbn; discriminate.
Qed.

Lemma environ_off_uses_default_witness :
  construct Sample.process Value_cls
    (Build_init_args (Some (PlainDefault (PStr "plain"))) (Some false) None None None None
       None None None None None None [])
  = (Return (Resolved (PStr "plain")), []).
Proof.
  destruct (environ_off_uses_default Sample.process) as (_ & H).
  destruct (H Value_cls
              (Build_init_args (Some (PlainDefault (PStr "plain"))) (Some false) None None
                 None None None None None None None None [])
              (Value_init (Some (PlainDefault (PStr "plain"))) (Some false) None None None
                 (blank Value_cls false))
              eq_refl eq_refl eq_refl) as (Htruthy & _).
  apply Htruthy; [reflexivity | discriminate | discriminate].
Defined.

(* ===================================================================== *)
(** * Boolean defaults, casters *)
(* ===================================================================== *)




(** A caster's exception of a listed class, by its own class or by a
    base, is one [exc_isinstance] accepts. *)
Lemma exc_isinstance_own_class (e : exn) (classes : list exc_class) :
  exc_isinstance e classes = false -> ~ In (exn_class e) classes.
Proof.
  unfold exc_isinstance. cbn [existsb]. intros H Hin.
  apply orb_false_iff in H as [H _].
  apply bool_decide_eq_false in H. apply H. now apply list_elem_of_In.
Qed.



(** X7.  For a descriptor with a caster, [CastingMixin.to_python] hands
    back what the caster returns and lets no exception of the classes in
    [exception] out: for [IntegerValue] and [FloatValue] an exception that
    comes out is never a [TypeError] or a [ValueError], those having
    become [ValueProcessingError]s that carry the value. *)
Theorem CastingMixin_lets_no_listed_error_out (self : Value) (f : caster_fn)
    (value : pyval) :
  _caster self = Some f ->
  (forall v, f (_params self) value = Return v ->
             CastingMixin_to_python self value = Return v)
  /\ (forall e, CastingMixin_to_python self value = Raise e ->
      ~ In (exn_class e) (class_exception (cls self)))
  /\ (forall e, f (_params self) value = Raise e ->
      exc_isinstance e (class_exception (cls self)) = true ->
      CastingMixin_to_python self value = Raise (processing_error self value "")).
Proof.
  intros Hf. unfold CastingMixin_to_python. rewrite Hf.
  assert (Hcall : match _params self with
                  | [] => f [] value
                  | (_ :: _) as params => f params value
                  end = f (_params self) value) by now destruct (_params self).
  rewrite Hcall. split; [|split].
  - now intros v ->.
  - intros e H. destruct (f (_params self) value) as [v|e']; [discriminate H|].
    destruct (exc_isinstance e' _) eqn:Hi.
    + injection H as <-. cbn [exn_class processing_error].
      destruct (cls self); cbn; intuition discriminate.
    + injection H as <-. now apply exc_isinstance_own_class.
  - now intros e -> ->.
Qed.

Lemma CastingMixin_lets_no_listed_error_out_witness :
  let d := with_caster Sample.int [] (base_init no_args (blank IntegerValue false)) in
  CastingMixin_to_python d (PStr "forty-two") = Raise (processing_error d (PStr "forty-two") "").
Proof.
  intros d.
  destruct (CastingMixin_lets_no_listed_error_out d Sample.int (PStr "forty-two") eq_refl)
    as (_ & _ & H).
  apply (H (builtin_error ValueError "invalid literal for int()")); reflexivity.
Defined.

(* ===================================================================== *)
(** * Trimming, splitting and joining *)
(* ===================================================================== *)

Lemma append_cons (x : ascii) (a b : string) : String x a +:+ b = String x (a +:+ b).
Proof. reflexivity. Qed.

Lemma append_empty_r (a : string) : a +:+ EmptyString = a.
Proof. induction a as [|x a IH]; [reflexivity|]. now rewrite append_cons, IH. Qed.

Lemma rstrip_cons (c : ascii) (s : string) :
  Str.isspace c = false -> Str.rstrip (String c s) = String c (Str.rstrip s).
Proof. intros Hc. cbn [Str.rstrip]. rewrite Hc. now destruct (Str.rstrip s). Qed.

Lemma rstrip_idem (s : string) : Str.rstrip (Str.rstrip s) = Str.rstrip s.
Proof.
  induction s as [|c s IH]; [reflexivity|].
  cbn [Str.rstrip]. destruct (Str.rstrip s) as [|d r] eqn:Hr.
  - destruct (Str.isspace c) eqn:Hc; [reflexivity|]. cbn [Str.rstrip]. now rewrite Hc.
  - cbn [Str.rstrip]. cbn [Str.rstrip] in IH. rewrite IH. reflexivity.
Qed.

Lemma lstrip_head (s : string) :
  Str.lstrip s = EmptyString
  \/ exists c t, Str.lstrip s = String c t /\ Str.isspace c = false.
Proof.
  induction s as [|c s IH]; [now left|].
  cbn [Str.lstrip]. destruct (Str.isspace c) eqn:Hc; [exact IH|].
  right. now exists c, s.
Qed.

Lemma lstrip_nonspace (c : ascii) (s : string) :
  Str.isspace c = false -> Str.lstrip (String c s) = String c s.
Proof. intros Hc. cbn [Str.lstrip]. now rewrite Hc. Qed.

Lemma strip_idem (s : string) : Str.strip (Str.strip s) = Str.strip s.
Proof.
  unfold Str.strip. destruct (lstrip_head s) as [-> | (c & t & -> & Hc)]; [reflexivity|].
  rewrite (rstrip_cons c t Hc), (lstrip_nonspace c _ Hc), (rstrip_cons c _ Hc).
  now rewrite rstrip_idem.
Qed.

Lemma lstrip_length (s : string) :
  Str.lstrip s = s \/ (String.length (Str.lstrip s) < String.length s)%nat.
Proof.
  induction s as [|c s IH]; [now left|].
  cbn [Str.lstrip]. destruct (Str.isspace c); [|now left].
  right. cbn [String.length]. destruct IH as [-> | IH]; lia.
Qed.

Lemma rstrip_length (s : string) :
  (String.length (Str.rstrip s) <= String.length s)%nat.
Proof.
  induction s as [|c s IH]; [reflexivity|].
  cbn [Str.rstrip]. destruct (Str.rstrip s) as [|d r].
  - destruct (Str.isspace c); cbn; lia.
  - cbn [String.length] in *. lia.
Qed.

(** A text that trimming leaves as it is has no blank at either end. *)
Lemma strip_fixed (t : string) :
  Str.strip t = t -> Str.lstrip t = t /\ Str.rstrip t = t.
Proof.
  intros H. unfold Str.strip in H.
  assert (Hl : Str.lstrip t = t).
  { destruct (lstrip_length t) as [Hl | Hl]; [exact Hl|].
    pose proof (rstrip_length (Str.lstrip t)) as Hr. rewrite H in Hr. lia. }
  split; [exact Hl|]. now rewrite Hl in H.
Qed.

Lemma rstrip_app (a b : string) :
  Str.rstrip b <> EmptyString -> Str.rstrip (a +:+ b) = a +:+ Str.rstrip b.
Proof.
  intros Hb. induction a as [|x a IH]; [reflexivity|].
  rewrite !append_cons. cbn [Str.rstrip]. rewrite IH.
  destruct (a +:+ Str.rstrip b) as [|y r] eqn:Hab; [|reflexivity].
  destruct a; [|discriminate Hab]. now destruct (Str.rstrip b).
Qed.

Lemma rev_onto_rev_onto (t cur acc : string) :
  Str.rev_onto (Str.rev_onto t cur) acc = Str.rev_onto cur (t +:+ acc).
Proof.
  revert cur acc. induction t as [|x t IH]; intros cur acc; [reflexivity|].
  cbn [Str.rev_onto]. now rewrite IH.
Qed.

Lemma rev_rev_onto (t : string) : Str.rev (Str.rev_onto t EmptyString) = t.
Proof. unfold Str.rev. rewrite rev_onto_rev_onto. cbn. apply append_empty_r. Qed.

Section SingleSeparator.

Variable c : ascii.

Let sep := String c EmptyString.

Lemma split_scan_separator (s cur : string) :
  Str.split_scan sep (String c s) O cur = Str.rev cur :: Str.split_scan sep s O EmptyString.
Proof.
  cbn [Str.split_scan sep Str.startswith]. destruct (ascii_dec c c); [reflexivity | contradiction].
Qed.

Lemma split_scan_other (x : ascii) (s cur : string) :
  x <> c -> Str.split_scan sep (String x s) O cur = Str.split_scan sep s O (String x cur).
Proof.
  intros Hx. cbn [Str.split_scan sep Str.startswith].
  destruct (ascii_dec c x); [congruence | reflexivity].
Qed.

Lemma split_scan_free (t s cur : string) :
  free_of c t ->
  Str.split_scan sep (t +:+ s) O cur = Str.split_scan sep s O (Str.rev_onto t cur).
Proof.
  revert cur. induction t as [|x t IH]; intros cur Hf; [reflexivity|].
  rewrite append_cons, split_scan_other.
  - cbn [Str.rev_onto]. apply IH. intros Hin. apply Hf. now right.
  - intros ->. apply Hf. now left.
Qed.

Lemma split_scan_last (t : string) :
  free_of c t -> Str.split_scan sep t O EmptyString = [t].
Proof.
  intros Hf. rewrite <- (append_empty_r t) at 1. rewrite split_scan_free by assumption.
  cbn [Str.split_scan]. now rewrite rev_rev_onto.
Qed.

(** Splitting what [join] made gives the pieces back. *)
Lemma split_scan_join (t : string) (ts : list string) :
  Forall (free_of c) (t :: ts) ->
  Str.split_scan sep (Str.join sep (t :: ts)) O EmptyString = t :: ts.
Proof.
  revert t. induction ts as [|t2 ts IH]; intros t Hf.
  - cbn [Str.join]. apply split_scan_last. now inversion Hf.
  - inversion Hf as [|? ? Ht Hts]; subst.
    change (Str.join sep (t :: t2 :: ts)) with (t +:+ sep +:+ Str.join sep (t2 :: ts)).
    rewrite split_scan_free by assumption.
    unfold sep at 2. rewrite append_cons. change (EmptyString +:+ ?x) with x.
    rewrite split_scan_separator, rev_rev_onto. f_equal. now apply IH.
Qed.

Lemma join_nonempty (t : string) (ts : list string) :
  t <> EmptyString -> Str.join sep (t :: ts) <> EmptyString.
Proof.
  intros Ht. destruct ts as [|t2 ts]; [exact Ht|].
  change (Str.join sep (t :: t2 :: ts)) with (t +:+ sep +:+ Str.join sep (t2 :: ts)).
  destruct t; [contradiction | discriminate].
Qed.

Lemma rstrip_join (t : string) (ts : list string) :
  Forall (token c) (t :: ts) ->
  Str.rstrip (Str.join sep (t :: ts)) = Str.join sep (t :: ts).
Proof.
  revert t. induction ts as [|t2 ts IH]; intros t Hf.
  - inversion Hf as [|? ? (Hne & Hs & _) _]; subst. cbn [Str.join].
    now apply strip_fixed.
  - inversion Hf as [|? ? Ht Hts]; subst.
    change (Str.join sep (t :: t2 :: ts)) with (t +:+ sep +:+ Str.join sep (t2 :: ts)).
    assert (Hj : Str.join sep (t2 :: ts) <> EmptyString).
    { apply join_nonempty. inversion Hts as [|? ? (Hne & _) _]. exact Hne. }
    assert (Hr : Str.rstrip (sep +:+ Str.join sep (t2 :: ts))
                 = sep +:+ Str.join sep (t2 :: ts)).
    { rewrite rstrip_app; rewrite (IH t2 Hts); [reflexivity | exact Hj]. }
    rewrite rstrip_app; rewrite Hr; [reflexivity|]. discriminate.
Qed.

Lemma strip_join (ts : list string) :
  Forall (token c) ts -> Str.strip (Str.join sep ts) = Str.join sep ts.
Proof.
  intros Hf. destruct ts as [|t ts]; [reflexivity|].
  unfold Str.strip.
  assert (Hl : Str.lstrip (Str.join sep (t :: ts)) = Str.join sep (t :: ts)).
  { inversion Hf as [|? ? (Hne & Hs & _) _]; subst.
    apply strip_fixed in Hs as [Hs _].
    destruct t as [|x t]; [contradiction|].
    assert (Hx : Str.isspace x = false).
    { cbn [Str.lstrip] in Hs. destruct (Str.isspace x) eqn:Hx; [|reflexivity].
      exfalso. destruct (lstrip_length t) as [Hl | Hl].
      - rewrite Hl in Hs. apply (f_equal String.length) in Hs. cbn in Hs. lia.
      - rewrite Hs in Hl. cbn in Hl. lia. }
    destruct ts as [|t2 ts].
    - cbn [Str.join]. now apply lstrip_nonspace.
    - change (Str.join sep (String x t :: t2 :: ts))
        with (String x (t +:+ sep +:+ Str.join sep (t2 :: ts))).
      now apply lstrip_nonspace. }
  rewrite Hl. now apply rstrip_join.
Qed.

(** The tokens the parser takes from the joined text are the tokens that
    were joined. *)
Lemma tokens_of_join (ts : list string) :
  Forall (token c) ts ->
  List.filter nonempty
    (List.map Str.strip (Str.split_scan sep (Str.strip (Str.join sep ts)) O EmptyString))
  = ts.
Proof.
  intros Hf. rewrite strip_join by assumption.
  destruct ts as [|t ts]; [reflexivity|].
  rewrite split_scan_join.
  - induction Hf as [|x l (Hne & Hs & _) _ IH]; [reflexivity|].
    cbn [List.map List.filter]. rewrite Hs.
    assert (Hn : nonempty x = true) by (now destruct x).
    rewrite Hn. now rewrite IH.
  - eapply Forall_impl; [exact Hf|]. now intros a (_ & _ & Ha).
Qed.

End SingleSeparator.

(* ===================================================================== *)
(** * What the sequence parsers return *)
(* ===================================================================== *)

Lemma py_split_single (c : ascii) (s : string) :
  py_split (String c EmptyString) s
  = Return (Str.split_scan (String c EmptyString) s O EmptyString).
Proof. reflexivity. Qed.

(** [SequenceValue.to_python], with the tokens shown: the pieces of the
    trimmed text, each trimmed, the empty ones dropped. *)
Lemma SequenceValue_to_python_tokens ty self raw v :
  SequenceValue_to_python ty self (PStr raw) = Return v ->
  exists parts,
    Str.split (separator self) (Str.strip raw) = Some parts
    /\ flat_converted ty (converter_in_force (converter self))
         (List.map PStr (List.filter nonempty (List.map Str.strip parts))) v.
Proof.
  intros H.
  assert (Hv : exists parts,
             Str.split (separator self) (Str.strip raw) = Some parts
             /\ SequenceValue_to_python ty self (PStr raw)
                = obind (match converter self with
                         | Some _ =>
                             _convert ty self
                               (make_seq ty
                                  (List.map PStr
                                     (List.filter nonempty (List.map Str.strip parts))))
                         | None =>
                             Return
                               (make_seq ty
                                  (List.map PStr
                                     (List.filter nonempty (List.map Str.strip parts))))
                         end) (py_sequence ty)).
  { unfold SequenceValue_to_python in *. cbn [as_str obind] in *. unfold py_split in *.
    destruct (Str.split (separator self) (Str.strip raw)) as [parts|]; [|discriminate H].
    exists parts. split; reflexivity. }
  destruct Hv as (parts & Hs & Heq). rewrite Heq in H. clear Heq.
  exists parts. split; [exact Hs|].
  set (toks := List.filter nonempty (List.map Str.strip parts)) in *.
  destruct (converter self) as [f|] eqn:Hf; cbn [converter_in_force].
  - destruct (_convert ty self _) as [x|] eqn:Hc; [|discriminate H]. cbn [obind] in H.
    unfold _convert, SingleNestedSequenceValue_convert in Hc.
    assert (Hbare : truthy (make_seq ty (List.map PStr toks))
                    && match first_item (make_seq ty (List.map PStr toks)) with
                       | Some x0 => isinstance_seq ty x0
                       | None => false
                       end = false).
    { destruct toks as [|t toks]; destruct ty; reflexivity. }
    rewrite Hbare in Hc.
    assert (Hflat : exists y,
               SequenceValue_convert ty self (make_seq ty (List.map PStr toks)) = Return y
               /\ py_sequence ty y = Return x).
    { destruct (is_nested (cls self)).
      - destruct (SequenceValue_convert ty self _) as [y|]; [|discriminate Hc].
        exists y. split; [reflexivity | exact Hc].
      - exists x. split; [exact Hc|].
        destruct (SequenceValue_convert_flat ty self _ f x Hf Hc) as (its & _ & ys & _ & ->).
        apply py_sequence_make_seq. }
    destruct Hflat as (y & Hy & Hx).
    destruct (SequenceValue_convert_flat ty self _ f y Hf Hy) as (its & Hi & ys & Hm & ->).
    rewrite py_iter_make_seq in Hi. injection Hi as <-.
    rewrite py_sequence_make_seq in Hx. injection Hx as <-.
    rewrite py_sequence_make_seq in H. injection H as <-.
    now exists ys.
  - cbn [obind] in H. rewrite py_sequence_make_seq in H. injection H as <-.
    eexists. split; [apply map_outcome_Return | reflexivity].
Qed.

(** X8.  What [SequenceValue.to_python] puts in the sequence it returns
    (or hands to the converter, when there is one) are texts that are not
    empty and have no blank at either end: empty and blank pieces of the
    raw text never become items. *)
Theorem parsed_items_are_trimmed (ty : seq_type) (self : Value) (raw : string) (v : pyval) :
  SequenceValue_to_python ty self (PStr raw) = Return v ->
  exists tokens,
    Forall (fun t => t <> EmptyString /\ Str.strip t = t) tokens
    /\ flat_converted ty (converter_in_force (converter self)) (List.map PStr tokens) v
    /\ (converter self = None -> v = make_seq ty (List.map PStr tokens)).
Proof.
  intros H. destruct (SequenceValue_to_python_tokens ty self raw v H) as (parts & _ & Hflat).
  exists (List.filter nonempty (List.map Str.strip parts)). split; [|split].
  - apply List.Forall_forall. intros t Ht. apply List.filter_In in Ht as [Ht Hn].
    apply List.in_map_iff in Ht as (p & <- & _). split.
    + intros He. rewrite He in Hn. discriminate Hn.
    + apply strip_idem.
  - exact Hflat.
  - intros Hc. rewrite Hc in Hflat. destruct Hflat as (ys & Hy & ->).
    cbn [converter_in_force] in Hy. rewrite map_outcome_Return in Hy. now injection Hy as <-.
Qed.

Lemma parsed_items_are_trimmed_witness :
  exists tokens,
    Forall (fun t => t <> EmptyString /\ Str.strip t = t) tokens
    /\ PList [PStr "a"; PStr "b"; PStr "c"] = make_seq list_type (List.map PStr tokens).
Proof.
  destruct (parsed_items_are_trimmed list_type
              (base_init no_args (with_sequence "," None (blank ListValue false)))
              " a, ,b ,, c " (PList [PStr "a"; PStr "b"; PStr "c"]) eq_refl)
    as (tokens & Hclean & _ & Hv).
  exists tokens. split; [exact Hclean | exact (Hv eq_refl)].
Defined.

(** X9.  A round trip: for a separator of one character and no converter,
    parsing the tokens joined by the separator gives the tokens back, in
    order, whenever each token is not empty, has no blank at either end
    and does not hold the separator. *)
Theorem join_then_parse (ty : seq_type) (self : Value) (c : ascii) (tokens : list string) :
  separator self = String c EmptyString ->
  converter self = None ->
  Forall (token c) tokens ->
  SequenceValue_to_python ty self (PStr (Str.join (String c EmptyString) tokens))
  = Return (make_seq ty (List.map PStr tokens)).
Proof.
  intros Hs Hc Hf. unfold SequenceValue_to_python. cbn [as_str obind].
  rewrite Hs, Hc, py_split_single. cbn [obind]. cbv zeta.
  rewrite (tokens_of_join c tokens Hf). apply py_sequence_make_seq.
Qed.

Lemma token_plain (c : ascii) (t : string) :
  t <> EmptyString -> Str.strip t = t ->
  forallb (fun x => negb (Ascii.eqb x c)) (list_ascii_of_string t) = true ->
  token c t.
Proof.
  intros Hne Hs Hf. repeat split; try assumption.
  intros Hin. rewrite forallb_forall in Hf. specialize (Hf c Hin).
  now rewrite Ascii.eqb_refl in Hf.
Qed.

Lemma join_then_parse_witness :
  SequenceValue_to_python tuple_type
    (base_init no_args (with_sequence "," None (blank TupleValue false)))
    (PStr "alpha,beta gamma,delta")
  = Return (PTuple [PStr "alpha"; PStr "beta gamma"; PStr "delta"]).
Proof.
  apply (join_then_parse tuple_type
           (base_init no_args (with_sequence "," None (blank TupleValue false)))
           "," ["alpha"; "beta gamma"; "delta"] eq_refl eq_refl).
  repeat (constructor; [apply token_plain; (discriminate || reflexivity)|]).
  constructor.
Defined.

(** X10.  A raw text that is empty or all blanks parses to the empty
    container of the class (list, tuple or set), with or without a
    converter, provided the separator is not the empty text. *)
Theorem blank_text_is_empty_sequence (w : world) (self : Value) (raw : string) :
  Str.strip raw = EmptyString ->
  (separator self <> EmptyString ->
   (cls self = ListValue -> to_python w self (PStr raw) = Return (PList []))
   /\ (cls self = TupleValue -> to_python w self (PStr raw) = Return (PTuple []))
   /\ (cls self = SetValue -> to_python w self (PStr raw) = Return (PSet [])))
  /\ (seq_separator self <> EmptyString ->
      (cls self = SingleNestedListValue -> to_python w self (PStr raw) = Return (PList []))
      /\ (cls self = SingleNestedTupleValue ->
          to_python w self (PStr raw) = Return (PTuple []))).
Proof.
  intros Hb.
  assert (Hsplit : forall sep, sep <> EmptyString -> py_split sep EmptyString = Return [EmptyString]).
  { intros sep Hs. unfold py_split, Str.split. destruct sep; [contradiction | reflexivity]. }
  assert (Hflat : forall ty,
             separator self <> EmptyString -> is_nested (cls self) = false ->
             SequenceValue_to_python ty self (PStr raw) = Return (make_seq ty [])).
  { intros ty Hs Hn. unfold SequenceValue_to_python. cbn [as_str obind].
    rewrite Hb, (Hsplit _ Hs). cbn [obind List.map List.filter Str.strip Str.lstrip Str.rstrip nonempty
                                     Str.is_empty negb].
    destruct (converter self) as [f|].
    - unfold _convert. rewrite Hn. unfold SequenceValue_convert.
      rewrite py_iter_make_seq. cbn [obind convert_loop]. apply py_sequence_make_seq.
    - cbn [obind]. apply py_sequence_make_seq. }
  split.
  - intros Hs. repeat split; intros Hc; unfold to_python; rewrite Hc.
    + apply Hflat; [assumption | now rewrite Hc].
    + apply Hflat; [assumption | now rewrite Hc].
    + unfold SetValue_to_python. rewrite Hflat; [reflexivity | assumption | now rewrite Hc].
  - intros Hs. split; intros Hc; unfold to_python; rewrite Hc;
      unfold SingleNestedSequenceValue_to_python; cbn [as_str obind];
      now rewrite Hb, (Hsplit _ Hs).
Qed.

Lemma blank_text_is_empty_sequence_witness :
  to_python Sample.process
    (base_init no_args (with_sequence "," (Some (Sample.int [])) (blank ListValue false)))
    (PStr "   ")
  = Return (PList []).
Proof.
  destruct (blank_text_is_empty_sequence Sample.process
              (base_init no_args (with_sequence "," (Some (Sample.int [])) (blank ListValue false)))
              "   " eq_refl) as (Hflat & _).
  destruct (Hflat ltac:(discriminate)) as (Hlist & _).
  exact (Hlist eq_refl).
Defined.

Lemma dedup_strings (l : list string) :
  exists members,
    dedup_py (List.map PStr l) = List.map PStr members
    /\ List.NoDup members
    /\ forall t, In t members <-> In t l.
Proof.
  induction l as [|x l (m & Hd & Hn & Hin)].
  - exists []. repeat split; (constructor || tauto).
  - exists (x :: List.filter (fun t => negb (String.eqb x t)) m). split; [|split].
    + cbn [List.map dedup_py]. rewrite Hd. f_equal.
      clear. induction m as [|y m IH]; [reflexivity|].
      cbn [List.map List.filter]. change (py_eqb (PStr x) (PStr y)) with (String.eqb x y).
      destruct (negb (String.eqb x y)); cbn [List.map]; now rewrite IH.
    + constructor.
      * intros Hx. apply List.filter_In in Hx as [_ Hx].
        now rewrite String.eqb_refl in Hx.
      * now apply List.NoDup_filter.
    + intros t. cbn [In]. rewrite List.filter_In, Hin. split.
      * intros [-> | [Ht _]]; auto.
      * intros [-> | Ht]; [now left|].
        destruct (String.eqb x t) eqn:He.
        -- apply String.eqb_eq in He. now left.
        -- right. split; [assumption | reflexivity].
Qed.

(** X11.  [SetValue.to_python], without a converter, returns the tokens of
    the list parse as a set: each token is a member, nothing else is, and
    no member occurs twice. *)
Theorem set_collapses_duplicates (self : Value) (raw : string) (v : pyval) :
  converter self = None ->
  SetValue_to_python self (PStr raw) = Return v ->
  exists tokens members,
    SequenceValue_to_python list_type self (PStr raw) = Return (PList (List.map PStr tokens))
    /\ v = PSet (List.map PStr members)
    /\ List.NoDup members
    /\ forall t, In t members <-> In t tokens.
Proof.
  intros Hc H. unfold SetValue_to_python in H.
  destruct (SequenceValue_to_python list_type self (PStr raw)) as [x|] eqn:Hl;
    [|discriminate H].
  destruct (SequenceValue_to_python_tokens list_type self raw x Hl) as (parts & _ & Hflat).
  rewrite Hc in Hflat. destruct Hflat as (ys & Hy & ->).
  cbn [converter_in_force] in Hy. rewrite map_outcome_Return in Hy. injection Hy as <-.
  set (tokens := List.filter nonempty (List.map Str.strip parts)) in *.
  destruct (dedup_strings tokens) as (members & Hd & Hn & Hin).
  exists tokens, members. split; [reflexivity|].
  cbn [obind make_seq] in H. unfold py_set in H. cbn [py_iter obind] in H.
  assert (Hh : forallb hashable (List.map PStr tokens) = true).
  { apply forallb_forall. intros y Hy. apply List.in_map_iff in Hy as (t & <- & _).
    reflexivity. }
  rewrite Hh, Hd in H. injection H as <-. auto.
Qed.

Lemma set_collapses_duplicates_witness :
  exists tokens members,
    SequenceValue_to_python list_type
      (base_init no_args (with_sequence "," None (blank SetValue false))) (PStr "a,a,b")
    = Return (PList (List.map PStr tokens))
    /\ PSet [PStr "a"; PStr "b"] = PSet (List.map PStr members)
    /\ List.NoDup members
    /\ forall t, In t members <-> In t tokens.
Proof.
  exact (set_collapses_duplicates
           (base_init no_args (with_sequence "," None (blank SetValue false)))
           "a,a,b" (PSet [PStr "a"; PStr "b"]) eq_refl eq_refl).
Defined.

(** X12.  The nested parser is the flat parser applied group by group:
    for an outer separator of one character, the text made of groups
    joined by it (each group not empty, trimmed, without the outer
    separator) parses to the sequence of the flat parses of the groups, in
    order, and fails where the first of them fails. *)
Theorem nested_parses_group_by_group (ty : seq_type) (self : Value) (c : ascii)
    (groups : list string) :
  seq_separator self = String c EmptyString ->
  Forall (token c) groups ->
  SingleNestedSequenceValue_to_python ty self (PStr (Str.join (String c EmptyString) groups))
  = obind (map_outcome (fun g => SequenceValue_to_python ty self (PStr g)) groups)
      (fun vs => Return (make_seq ty vs)).
Proof.
  intros Hs Hf. unfold SingleNestedSequenceValue_to_python. cbn [as_str obind].
  rewrite Hs, py_split_single. cbn [obind]. cbv zeta.
  now rewrite (tokens_of_join c groups Hf).
Qed.

Lemma nested_parses_group_by_group_witness :
  SingleNestedSequenceValue_to_python list_type
    (base_init no_args
       (with_sequence "," None (with_seq_separator ";" (blank SingleNestedListValue false))))
    (PStr "a,b;c,d")
  = Return (PList [PList [PStr "a"; PStr "b"]; PList [PStr "c"; PStr "d"]]).
Proof.
  change "a,b;c,d" with (Str.join ";" ["a,b"; "c,d"]).
  rewrite (nested_parses_group_by_group list_type
             (base_init no_args
                (with_sequence "," None
                   (with_seq_separator ";" (blank SingleNestedListValue false))))
             ";" ["a,b"; "c,d"] eq_refl).
  - reflexivity.
  - repeat (constructor; [apply token_plain; (discriminate || reflexivity)|]).
    constructor.
Defined.

(* ===================================================================== *)
(** * The container a descriptor resolves to *)
(* ===================================================================== *)

Lemma Value_setup_returns (w : world) (name : option string) (self : Value) (v : pyval) :
  result (Value_setup w name self) = Return v ->
  v = default self
  \/ exists raw, to_python w (with_destination_name name self) (PStr raw) = Return v.
Proof.
  unfold Value_setup, bind, modify, get, lift, ret, raise, environ_lookup.
  cbn [environ with_destination_name environ_required default].
  destruct (environ self); [|cbn; intros [= <-]; now left].
  destruct (full_environ_name _) as [fen|e]; [|discriminate].
  destruct (os_environ w !! fen) as [raw|].
  - destruct (to_python w _ (PStr raw)) as [x|] eqn:Ht; cbn; [|discriminate].
    intros [= <-]. right. now exists raw.
  - destruct (environ_required self); cbn; [discriminate|]. intros [= <-]. now left.
Qed.









(* ===================================================================== *)
(** * Validated values *)
(* ===================================================================== *)

Lemma ValidationMixin_init_ok (w : world) (va : option validator_attr) (args : init_args)
    (self d : Value) :
  validating_class (cls self) -> ValidationMixin_init w va args self = Return d ->
  cls d = cls self
  /\ exists f, _validator d = Some f
               /\ (truthy (default d) = true -> f (default d) = Return tt).
Proof.
  intros Hc H. unfold ValidationMixin_init in H.
  destruct (match va with Some (ValidatorPath _) => _ | _ => _ end) as [f|]; [|discriminate H].
  cbn [obind] in H.
  destruct (truthy _) eqn:Ht.
  - destruct (to_python w _ _) as [x|e] eqn:Hp;
      [|destruct (exc_isinstance e _); discriminate H].
    injection H as <-. split; [reflexivity|]. exists f. split; [reflexivity|]. intros _.
    unfold to_python in Hp. cbn [cls with_validator base_init Value_init] in Hp.
    unfold validating_class in Hc. cbn [In] in Hc.
    destruct (cls self); try (exfalso; intuition discriminate);
      unfold ValidationMixin_to_python in Hp;
      cbn [_validator with_validator default base_init Value_init] in Hp |- *;
      destruct (f _) as [[]|e]; try reflexivity;
      destruct (exc_isinstance e _); discriminate Hp.
  - injection H as <-. split; [reflexivity|]. exists f. split; [reflexivity|].
    cbn [default with_validator] in Ht |- *. congruence.
Qed.

Lemma validating_init_ok (w : world) (args : init_args) (self d : Value) :
  validating_class (cls self) -> init w args self = Return d ->
  cls d = cls self
  /\ exists f, _validator d = Some f
               /\ (truthy (default d) = true -> f (default d) = Return tt).
Proof.
  intros Hc H. unfold init, RegexValue_init in H.
  pose proof (fun va => ValidationMixin_init_ok w va args self d Hc) as Hv.
  unfold validating_class in Hc. cbn [In] in Hc.
  destruct (cls self); try (exfalso; intuition discriminate); eapply Hv; exact H.
Qed.

(** X14.  A validating descriptor (email, URL, IP address, regular
    expression) never resolves to a value its validator has not accepted,
    a falsy default apart: whatever [setup] returns is either the default,
    when that is falsy (and was never validated), or a value on which the
    validator kept by the constructor returns. *)
Theorem resolved_value_was_validated (w : world) (args : init_args) (self d : Value)
    (name : option string) (v : pyval) :
  validating_class (cls self) -> init w args self = Return d ->
  result (setup w name d) = Return v ->
  exists f, _validator d = Some f
            /\ ((v = default d /\ truthy v = false) \/ f v = Return tt).
Proof.
  intros Hc Hi Hr. destruct (validating_init_ok w args self d Hc Hi) as (Hcls & f & Hf & Hd).
  exists f. split; [exact Hf|].
  assert (Hplain : cls d <> PathValue /\ cls d <> SecretValue).
  { rewrite Hcls. unfold validating_class in Hc. cbn [In] in Hc.
    split; intros E; rewrite E in Hc; intuition discriminate. }
  rewrite setup_eq in Hr.
  destruct (Value_setup w name d) as [[[x|e] s] l] eqn:Hs; [|discriminate Hr].
  pose proof (f_equal cls (Value_setup_frame w name d)) as Hfr.
  rewrite Hs in Hfr. cbn [cls configuration self_after fst snd] in Hfr.
  assert (Hx : finish w s x = Return x).
  { unfold finish. rewrite Hfr. destruct (cls d); try reflexivity; now destruct Hplain. }
  cbn [result fst] in Hr. rewrite Hx in Hr. injection Hr as <-.
  destruct (Value_setup_returns w name d x) as [-> | (raw & Ht)]; [now rewrite Hs| |].
  - destruct (truthy (default d)); [right; now apply Hd | now left].
  - right. unfold to_python in Ht. cbn [cls with_destination_name] in Ht.
    rewrite Hcls in Ht. unfold validating_class in Hc. cbn [In] in Hc.
    destruct (cls self); try (exfalso; intuition discriminate);
      unfold ValidationMixin_to_python in Ht;
      cbn [_validator with_destination_name] in Ht; rewrite Hf in Ht;
      destruct (f (PStr raw)) as [[]|e] eqn:Hfr';
      try (destruct (exc_isinstance e _); discriminate Ht);
      injection Ht as <-; exact Hfr'.
Qed.

Lemma resolved_value_was_validated_witness :
  exists f, Some Strict.not_bad = Some f
            /\ ((PStr "a, b ,c" = PNone /\ truthy (PStr "a, b ,c") = false)
                \/ f (PStr "a, b ,c") = Return tt).
Proof.
  apply (resolved_value_was_validated
           (Build_world Sample.environ_table Sample.expanduser Sample.path_exists
              Sample.abspath Sample.literal_eval Sample.int Sample.no_caster
              Sample.no_caster (fun _ => None) (fun _ => Some Strict.not_bad)
              Strict.not_bad (fun _ => Strict.not_bad) (fun _ => None))
           no_args (blank RegexValue false)
           (with_validator Strict.not_bad (base_init no_args (blank RegexValue false)))
           (Some "HOSTS") (PStr "a, b ,c")).
  - unfold validating_class. cbn. tauto.
  - reflexivity.
  - reflexivity.
Defined.

(** X15.  The constructor of a validating descriptor lets no
    [ValueProcessingError] out: a default the validator rejects comes out
    as [ImproperlyConfigured]. *)
Theorem validating_init_raises_no_processing_error (w : world) (args : init_args)
    (self : Value) (e : exn) :
  validating_class (cls self) -> init w args self = Raise e ->
  exc_isinstance e [ValueProcessingError] = false.
Proof.
  intros Hc H.
  assert (Hv : forall va, ValidationMixin_init w va args self = Raise e ->
                          exc_isinstance e [ValueProcessingError] = false).
  { intros va Hva. unfold ValidationMixin_init in Hva.
    destruct (match va with Some (ValidatorPath _) => _ | _ => _ end) as [f|e1] eqn:Hres;
      cbn [obind] in Hva.
    - destruct (truthy _); [|discriminate Hva].
      destruct (to_python w _ _) as [x|e0]; [discriminate Hva|].
      destruct (exc_isinstance e0 _) eqn:He0; injection Hva as <-; [reflexivity | exact He0].
    - injection Hva as <-. destruct va as [[g|g]|].
      + discriminate Hres.
      + destruct (import_validator w g); [discriminate Hres | now injection Hres as <-].
      + now injection Hres as <-. }
  unfold init, RegexValue_init in H. unfold validating_class in Hc. cbn [In] in Hc.
  destruct (cls self); try (exfalso; intuition discriminate); eapply Hv; exact H.
Qed.

Lemma validating_init_raises_no_processing_error_witness :
  exc_isinstance
    (improperly_configured "Validation failed: Enter a valid value."
       (Some (processing_error
                (with_validator Strict.not_bad
                   (base_init (kw_default (PStr "bad") no_args) (blank EmailValue false)))
                (PStr "bad") "Validation failed: Enter a valid value.")))
    [ValueProcessingError] = false.
Proof.
  apply (validating_init_raises_no_processing_error Strict.process
           (kw_default (PStr "bad") no_args) (blank EmailValue false)).
  - unfold validating_class. cbn. tauto.
  - reflexivity.
Defined.

(** X16.  A truthy default that the validator rejects with a
    [ValidationError] makes the constructor fail with
    [ImproperlyConfigured], raised from the [ValueProcessingError] of the
    conversion, which holds the offending default. *)
Theorem rejected_default_fails_construction (w : world) (f : validator_fn)
    (args : init_args) (self : Value) (e0 : exn) :
  validating_class (cls self) ->
  truthy (stored_default (arg_default args)) = true ->
  f (stored_default (arg_default args)) = Raise e0 ->
  exc_isinstance e0 [ValidationError] = true ->
  exists e cause,
    ValidationMixin_init w (Some (ValidatorCallable f)) args self = Raise e
    /\ exn_class e = ImproperlyConfigured
    /\ exn_cause e = Some cause
    /\ exn_class cause = ValueProcessingError
    /\ exn_raw cause = Some (stored_default (arg_default args)).
Proof.
  intros Hc Ht Hf He0. unfold ValidationMixin_init. cbn [obind]. cbv zeta.
  change (default (with_validator f (base_init args self)))
    with (stored_default (arg_default args)).
  rewrite Ht.
  assert (Hp : to_python w (with_validator f (base_init args self))
                 (stored_default (arg_default args))
               = Raise (processing_error (with_validator f (base_init args self))
                          (stored_default (arg_default args))
                          ("Validation failed: " +:+ exn_msg e0))).
  { unfold to_python. cbn [cls with_validator base_init Value_init].
    unfold validating_class in Hc. cbn [In] in Hc.
    destruct (cls self); try (exfalso; intuition discriminate);
      unfold ValidationMixin_to_python; cbn [_validator with_validator];
      now rewrite Hf, He0. }
  rewrite Hp.
  eexists _, _. split; [reflexivity|]. cbn. auto.
Qed.

Lemma rejected_default_fails_construction_witness :
  exists e cause,
    ValidationMixin_init Strict.process (Some (ValidatorCallable Strict.not_bad))
      (kw_default (PStr "bad") no_args) (blank URLValue false) = Raise e
    /\ exn_class e = ImproperlyConfigured
    /\ exn_cause e = Some cause
    /\ exn_class cause = ValueProcessingError
    /\ exn_raw cause = Some (PStr "bad").
Proof.
  apply (rejected_default_fails_construction Strict.process Strict.not_bad
           (kw_default (PStr "bad") no_args) (blank URLValue false)
           (mk_exn ValidationError [] None None "Enter a valid value." None [])).
  - unfold validating_class. cbn. tauto.
  - reflexivity.
  - reflexivity.
  - reflexivity.
Defined.

(* ===================================================================== *)
(** * Paths and secrets *)
(* ===================================================================== *)

Lemma setup_checks (w : world) (name : option string) (self : Value) :
  exists self1,
    configuration self1 = configuration self
    /\ self_after (setup w name self) = self1
    /\ (forall e, result (Value_setup w name self) = Raise e ->
                  result (setup w name self) = Raise e)
    /\ (forall x, result (Value_setup w name self) = Return x ->
                  result (setup w name self) = finish w self1 x).
Proof.
  exists (self_after (Value_setup w name self)).
  split; [apply Value_setup_frame|].
  split; [apply setup_self_after|].
  rewrite setup_eq.
  destruct (Value_setup w name self) as [[[v|e] s] l]; cbn; split; congruence.
Qed.





(** X19.  When the base [setup] returns and [setup] still raises, the
    descriptor is a [PathValue] or a [SecretValue] whose own check failed,
    and the unchecked value is cached all the same: the next read of
    [value] returns it without testing the environment. *)
Theorem failed_check_leaves_value_cached (w : world) (self : Value) (name : string)
    (x : pyval) (e : exn) :
  result (Value_setup w (Some name) self) = Return x ->
  result (setup w (Some name) self) = Raise e ->
  (cls self = PathValue \/ cls self = SecretValue)
  /\ value_getter w (self_after (setup w (Some name) self))
     = (Return x, self_after (setup w (Some name) self), []).
Proof.
  intros Hv Hr. split.
  - destruct (setup_checks w (Some name) self) as (s & Hconf & _ & _ & Hret).
    rewrite (Hret x Hv) in Hr. unfold finish in Hr.
    rewrite (f_equal cls Hconf : cls s = cls self) in Hr.
    destruct (cls self); try discriminate Hr; auto.
  - apply value_getter_cached.
    rewrite (proj1 (setup_self_after w (Some name) self)).
    now rewrite (Value_setup_caches w name self x Hv).
Qed.

Lemma failed_check_leaves_value_cached_witness :
  let secret := Value_init None (Some true) None None (Some true) (blank SecretValue false) in
  outcome_class (result (setup Strict.process (Some "SECRET") secret))
  = Some ValueRetrievalError
  /\ result (value_getter Strict.process
               (self_after (setup Strict.process (Some "SECRET") secret)))
     = Return (PStr "").
Proof.
  intros secret. split; [reflexivity|].
  destruct (failed_check_leaves_value_cached Strict.process secret "SECRET" (PStr "")
              (retrieval_error (with_value (PStr "")
                                  (with_destination_name (Some "SECRET") secret)))
              eq_refl eq_refl) as (_ & H).
  now rewrite H.
Defined.

(* ===================================================================== *)
(** * URL descriptors *)
(* ===================================================================== *)

Lemma CastingMixin_init_frame (w : world) (args : init_args) (self d : Value) :
  CastingMixin_init w args self = Return d ->
  exists f params, d = with_caster f params self.
Proof.
  unfold CastingMixin_init. intros H.
  destruct (match class_caster w (cls self) with Some (CasterPath _) => _ | _ => _ end)
    as [[n f]|]; [|discriminate H].
  cbn [obind] in H. injection H as <-. eauto.
Qed.

Lemma url_init_names (w : world) (args : init_args) (self d : Value) (var : string) :
  url_variable (cls self) = Some var -> init w args self = Return d ->
  cls d = cls self
  /\ environ_name d = or_else (arg_environ_name args) (Some var)
  /\ environ_prefix d = environ_prefix
                          (Value_init None None None
                             (Some (or_else (arg_environ_prefix args) None)) None self)
  /\ alias d = (if bool_decide (cls self = EmailURLValue) then alias self
                else or_else (arg_alias args) (PStr "default")).
Proof.
  intros Hvar Hi. unfold init in Hi.
  destruct (cls self) eqn:Hcls; try discriminate Hvar; injection Hvar as <-;
    unfold EmailURLValue_init, DictBackendMixin_init in Hi;
    (destruct (CastingMixin_init w args _) as [c|] eqn:Hc; [|discriminate Hi]);
    apply CastingMixin_init_frame in Hc as (f & params & ->);
    cbn [obind] in Hi; unfold convert_default in Hi;
    (destruct (is_None _);
     [|destruct (to_python w _ _) as [x|]; [|discriminate Hi]; cbn [obind] in Hi]);
    injection Hi as <-; cbn; rewrite ?Hcls; repeat split; reflexivity.
Qed.

(** X20.  A URL descriptor (database, cache, search, email) built without
    [environ_name] and without [environ_prefix] reads the variable of its
    class ([DATABASE_URL], [CACHE_URL], [SEARCH_URL], [EMAIL_URL]): no
    prefix is put before it, and the name of the attribute it is assigned
    to plays no part. *)
Theorem url_descriptor_reads_class_variable (w : world) (args : init_args)
    (self d : Value) (var : string) (name : option string) :
  url_variable (cls self) = Some var ->
  arg_environ_name args = None -> arg_environ_prefix args = None ->
  init w args self = Return d ->
  full_environ_name (with_destination_name name d) = Return var.
Proof.
  intros Hvar Hn Hp Hi.
  destruct (url_init_names w args self d var Hvar Hi) as (_ & Hname & Hprefix & _).
  rewrite Hn in Hname. rewrite Hp in Hprefix. cbn in Hname, Hprefix.
  unfold full_environ_name. cbn [environ_name environ_prefix with_destination_name].
  rewrite Hname, Hprefix. cbn [truthy_name text_of obind].
  assert (Hne : Str.is_empty var = false).
  { destruct (cls self); try discriminate Hvar; now injection Hvar as <-. }
  now rewrite Hne.
Qed.

Lemma url_descriptor_reads_class_variable_witness :
  full_environ_name
    (with_destination_name (Some "DATABASES")
       (with_default (PDict [])
          (with_caster Strict.parse_database []
             (Value_init None (Some true) (Some (Some "DATABASE_URL")) (Some None) None
                (blank DatabaseURLValue true)))))
  = Return "DATABASE_URL".
Proof.
  apply (url_descriptor_reads_class_variable Strict.process no_args
           (blank DatabaseURLValue true)); reflexivity.
Defined.

Lemma backend_to_python (w : world) (d : Value) (value v : pyval) :
  backend_class (cls d) -> to_python w d value = Return v ->
  exists x, v = PDict [(alias d, x)].
Proof.
  intros Hc H. unfold to_python in H. unfold backend_class in Hc. cbn [In] in Hc.
  destruct (cls d); try (exfalso; intuition discriminate);
    unfold DictBackendMixin_to_python in H;
    (destruct (CastingMixin_to_python d value) as [x|]; [|discriminate H]);
    injection H as <-; eauto.
Qed.

(** X21.  A backend descriptor (database, cache, search) resolves to a
    dict with one entry under its alias, or to the empty dict of a
    descriptor without default: the default given to the constructor is
    parsed and wrapped like a value of the environment. *)
Theorem backend_value_is_keyed_by_alias (w : world) (args : init_args) (self d : Value)
    (name : option string) (v : pyval) :
  backend_class (cls self) -> init w args self = Return d ->
  result (setup w name d) = Return v ->
  v = PDict [] \/ exists x, v = PDict [(or_else (arg_alias args) (PStr "default"), x)].
Proof.
  intros Hc Hi Hr.
  assert (Hvar : exists var, url_variable (cls self) = Some var).
  { unfold backend_class in Hc. cbn [In] in Hc.
    destruct (cls self); try (exfalso; intuition discriminate); cbn; eauto. }
  destruct Hvar as (var & Hvar).
  destruct (url_init_names w args self d var Hvar Hi) as (Hcls & _ & _ & Halias).
  assert (Hne : bool_decide (cls self = EmailURLValue) = false).
  { unfold backend_class in Hc. cbn [In] in Hc.
    destruct (cls self); try (exfalso; intuition discriminate); reflexivity. }
  rewrite Hne in Halias.
  assert (Hdef : default d = PDict [] \/ exists x, default d = PDict [(alias d, x)]).
  { clear Hr Halias. pose proof Hc as Hc'. unfold init in Hi.
    unfold backend_class in Hc. cbn [In] in Hc.
    destruct (cls self) eqn:Hk; try (exfalso; intuition discriminate);
      unfold DictBackendMixin_init in Hi;
      (destruct (CastingMixin_init w args _) as [c|] eqn:Hcm; [|discriminate Hi]);
      apply CastingMixin_init_frame in Hcm as (f & params & ->);
      cbn [obind] in Hi; unfold convert_default in Hi;
      (destruct (is_None _); [injection Hi as <-; now left|]);
      (destruct (to_python w _ _) as [x|] eqn:Hp; [|discriminate Hi]);
      cbn [obind] in Hi; injection Hi as <-;
      (apply backend_to_python in Hp as (y & ->); [|cbn; rewrite Hk; exact Hc']);
      right; exists y; reflexivity. }
  destruct (setup_checks w name d) as (s & Hconf & _ & Hraise & Hret).
  destruct (result (Value_setup w name d)) as [x|e] eqn:Hv;
    [|rewrite (Hraise e eq_refl) in Hr; discriminate Hr].
  rewrite (Hret x eq_refl) in Hr. unfold finish in Hr.
  rewrite (f_equal cls Hconf : cls s = cls d), Hcls in Hr.
  assert (Hx : x = v).
  { unfold backend_class in Hc. cbn [In] in Hc.
    destruct (cls self); try (exfalso; intuition discriminate); congruence. }
  subst x. rewrite <- Halias.
  destruct (Value_setup_returns w name d v Hv) as [-> | (raw & Ht)]; [exact Hdef|].
  right.
  destruct (backend_to_python w (with_destination_name name d) (PStr raw) v) as (y & ->);
    [cbn [cls with_destination_name]; now rewrite Hcls | exact Ht |].
  now exists y.
Qed.

Lemma backend_value_is_keyed_by_alias_witness :
  PDict [(PStr "default", PDict [(PStr "NAME", PStr "sqlite:///db")])] = PDict []
  \/ exists x,
       PDict [(PStr "default", PDict [(PStr "NAME", PStr "sqlite:///db")])]
       = PDict [(PStr "default", x)].
Proof.
  apply (backend_value_is_keyed_by_alias Strict.process no_args
           (blank DatabaseURLValue true)
           (with_default (PDict [])
              (with_caster Strict.parse_database []
                 (Value_init None (Some true) (Some (Some "DATABASE_URL")) (Some None) None
                    (blank DatabaseURLValue true))))
           (Some "DATABASES")).
  - unfold backend_class. cbn. tauto.
  - reflexivity.
  - reflexivity.
Defined.

(* ===================================================================== *)
(** * The additional outputs of a multiple descriptor *)
(* ===================================================================== *)

Lemma setattr_items_lookup (items : list (pyval * pyval)) (target : gmap string pyval) :
  (forall k x, In (k, x) items -> exists s, k = PStr s) ->
  fst (setattr_items target items) = Return tt
  /\ forall k, snd (setattr_items target items) !! k
               = match item_for k items with
                 | Some x => Some x
                 | None => target !! k
                 end.
Proof.
  revert target. induction items as [|[k' x] rest IH]; intros target Hk.
  - split; reflexivity.
  - destruct (Hk k' x (or_introl eq_refl)) as (s & ->).
    cbn [setattr_items item_for].
    destruct (IH (<[s := x]> target)) as (Ho & Hl).
    { intros k y Hin. apply (Hk k y). now right. }
    split; [exact Ho|]. intros k. rewrite Hl.
    destruct (item_for k rest); [reflexivity|].
    change (py_eqb (PStr s) (PStr k)) with (String.eqb s k).
    destruct (String.eqb_spec s k) as [->|Hne].
    + apply lookup_insert_eq.
    + now apply lookup_insert_ne.
Qed.

(** X22.  When a multiple descriptor (an [EmailURLValue]) resolves to a
    dict whose keys are texts, [setup_value] returns and the target holds
    every item of the dict as an attribute: an attribute keyed in the dict
    has the value of its item, the attribute [name] has the dict itself
    unless the dict has an item of that name, and every other attribute
    is as before. *)
Theorem multiple_outputs_are_written (w : world) (target : gmap string pyval)
    (name : string) (value : Value) (items : list (pyval * pyval)) :
  multiple value = true ->
  result (setup w (Some name) value) = Return (PDict items) ->
  (forall k x, In (k, x) items -> exists s, k = PStr s) ->
  fst (fst (fst (setup_value w target name value))) = Return tt
  /\ forall k, target_after (setup_value w target name value) !! k
               = match item_for k items with
                 | Some x => Some x
                 | None => if String.eqb k name then Some (PDict items) else target !! k
                 end.
Proof.
  intros Hm Hr Hk.
  destruct (setup_returns_cached w name value (PDict items) Hr) as (cached & _ & Hs & Hf).
  assert (Hcached : cached = PDict items).
  { unfold finish in Hf. cbn [cls with_value with_destination_name] in Hf.
    unfold multiple in Hm. destruct (cls value); try discriminate Hm. congruence. }
  subst cached.
  assert (Hc : _value (self_after (setup w (Some name) value)) = Some (PDict items))
    by now rewrite Hs.
  rewrite (setup_value_unfold w target name value (PDict items) (PDict items) Hr Hc).
  cbv zeta. rewrite Hm. cbn [py_items].
  destruct (setattr_items_lookup items (<[name := PDict items]> target) Hk) as (Ho & Hl).
  split; [exact Ho|].
  intros k. unfold target_after. cbn [fst snd]. rewrite Hl.
  destruct (item_for k items); [reflexivity|].
  destruct (String.eqb_spec k name) as [->|Hne].
  - apply lookup_insert_eq.
  - apply lookup_insert_ne. congruence.
Qed.

Lemma multiple_outputs_are_written_witness :
  let value := with_default (PDict [])
                 (with_caster Strict.parse_email []
                    (Value_init None (Some true) (Some (Some "EMAIL_URL")) (Some None) None
                       (blank EmailURLValue true))) in
  let target := target_after (setup_value Strict.process ∅ "EMAIL" value) in
  target !! "EMAIL_HOST" = Some (PStr "smtp://mail")
  /\ target !! "EMAIL_PORT" = Some (PInt 25)
  /\ target !! "EMAIL"
     = Some (PDict [(PStr "EMAIL_HOST", PStr "smtp://mail"); (PStr "EMAIL_PORT", PInt 25)])
  /\ target !! "DEBUG" = None.
Proof.
  intros value target.
  destruct (multiple_outputs_are_written Strict.process ∅ "EMAIL" value
              [(PStr "EMAIL_HOST", PStr "smtp://mail"); (PStr "EMAIL_PORT", PInt 25)]
              eq_refl eq_refl) as (_ & H).
  - intros k x [[= <- <-] | [[= <- <-] | []]]; eauto.
  - subst target. rewrite !H. repeat split; reflexivity.
Defined.

(* ===================================================================== *)
(** * What the loader leaves in the module *)
(* ===================================================================== *)

Section LoaderState.

Import Importer.

Variable w : world.
Variables module_name package class_name : string.
Variable cls : schema.

Lemma inject_all_stops (before : list (string * attribute)) (name : string)
    (value : attribute) (rest : list (string * attribute))
    (module s s' : gmap string pyval) (l1 l2 : list string) (e : exn) :
  inject_all w before module = (Return tt, s, l1) ->
  inject_attribute w name value s = (Raise e, s', l2) ->
  inject_all w (before ++ (name, value) :: rest) module = (Raise e, s', l1 ++ l2).
Proof.
  revert module l1. induction before as [|[n a] before IH]; intros module l1 Hb Ha.
  - cbn in Hb. injection Hb as <- <-. cbn [app inject_all]. unfold bind. now rewrite Ha.
  - cbn [app inject_all] in *. unfold bind in *.
    destruct (inject_attribute w n a module) as [[[u|e'] m1] la]; [|discriminate Hb].
    destruct (inject_all w before m1) as [[o m2] lb] eqn:Hm.
    injection Hb as -> <- <-.
    rewrite (IH m1 lb Hm Ha). now rewrite app_assoc.
Qed.

(** X23.  When [exec_module] returns, the module has the attribute
    [CONFIGURATION], and it is the qualified name of the class, whatever
    the class has under that name: the loader writes it after all the
    attributes of the class. *)
Theorem exec_module_sets_CONFIGURATION (module module1 : gmap string pyval)
    (log : list string) :
  exec_module w module_name package class_name (Return cls) module
  = (Return tt, module1, log) ->
  module1 !! "CONFIGURATION" = Some (PStr (module_name +:+ "." +:+ class_name)).
Proof.
  rewrite exec_module_found. unfold try_except.
  destruct (injection w module_name class_name cls module) as [[[[]|e] s] l] eqn:Hi;
    [|discriminate].
  intros [= <- <-]. revert Hi. unfold injection, bind, lift, modify.
  destruct (pre_setup cls); [|discriminate].
  destruct (cls_setup cls); [|discriminate].
  destruct (instantiate cls) as [obj|]; [|discriminate].
  destruct (uppercase_attributes cls obj) as [attributes|]; [|discriminate].
  destruct (inject_all w attributes module) as [[[u|] m] la]; [|discriminate].
  destruct (post_setup cls) as [[]|]; [|discriminate].
  intros [= <- _]. apply lookup_insert_eq.
Qed.

(** X24.  The loader does not undo what it has written: when the
    attributes before [name] were injected and the injection of [name]
    raises, [exec_module] leaves the module as that attribute left it,
    the earlier attributes in place, and has tested the environment for
    nothing after it; the attributes after [name], the [CONFIGURATION]
    attribute and [post_setup] are not reached. *)
Theorem failed_attribute_stops_injection (obj : pyval)
    (before : list (string * attribute)) (name : string) (value : attribute)
    (rest : list (string * attribute)) (module s s' : gmap string pyval)
    (l1 l2 : list string) (e : exn) :
  pre_setup cls = Return tt -> cls_setup cls = Return tt ->
  instantiate cls = Return obj ->
  uppercase_attributes cls obj = Return (before ++ (name, value) :: rest) ->
  inject_all w before module = (Return tt, s, l1) ->
  inject_attribute w name value s = (Raise e, s', l2) ->
  self_after (exec_module w module_name package class_name (Return cls) module) = s'
  /\ lookups (exec_module w module_name package class_name (Return cls) module) = l1 ++ l2
  /\ outcome_class (result (exec_module w module_name package class_name (Return cls) module))
     <> None.
Proof.
  intros Hpre Hset Hobj Hattrs Hb Ha.
  rewrite exec_module_found. unfold try_except, injection, bind, lift, modify, raise.
  rewrite Hpre, Hset, Hobj, Hattrs, (inject_all_stops _ _ _ rest _ _ _ _ _ _ Hb Ha).
  cbn. rewrite app_nil_r. repeat split. discriminate.
Qed.

End LoaderState.

Lemma exec_module_sets_CONFIGURATION_witness :
  let cls := {| Importer.pre_setup := Return tt;
                Importer.cls_setup := Return tt;
                Importer.instantiate := Return (PObj "Dev()");
                Importer.uppercase_attributes := fun _ =>
                  Return [("CONFIGURATION", Importer.Plain (PStr "mine"));
                          ("DEBUG", Importer.Plain (PBool true))];
                Importer.post_setup := Return tt |} in
  (<["CONFIGURATION" := PStr "mysite.settings.Dev"]>
     (<["DEBUG" := PBool true]> (<["CONFIGURATION" := PStr "mine"]> ∅)) : gmap string pyval)
    !! "CONFIGURATION"
  = Some (PStr "mysite.settings.Dev").
Proof.
  intros cls.
  apply (exec_module_sets_CONFIGURATION Sample.process "mysite.settings" "mysite" "Dev" cls
           ∅ _ []).
  reflexivity.
Defined.

Lemma failed_attribute_stops_injection_witness :
  let d := base_init (kw_default (PBool false) no_args) (blank BooleanValue false) in
  let cls := {| Importer.pre_setup := Return tt;
                Importer.cls_setup := Return tt;
                Importer.instantiate := Return (PObj "Dev()");
                Importer.uppercase_attributes := fun _ =>
                  Return [("DEBUG", Importer.Plain (PBool true));
                          ("TIMEOUT",
                           Importer.Callable false (PObj "Dev.TIMEOUT")
                             (Return (Importer.CalledValue d)));
                          ("ZONE", Importer.Plain (PStr "UTC"))];
                Importer.post_setup := Return tt |} in
  let r := Importer.exec_module Sample.process "mysite.settings" "mysite" "Dev"
             (Return cls) ∅ in
  self_after r = <["DEBUG" := PBool true]> ∅
  /\ lookups r = [] ++ ["DJANGO_TIMEOUT"]
  /\ outcome_class (result r) <> None.
Proof.
  intros d cls r.
  apply (failed_attribute_stops_injection Sample.process "mysite.settings" "mysite" "Dev" cls
           (PObj "Dev()") [("DEBUG", Importer.Plain (PBool true))] "TIMEOUT"
           (Importer.Callable false (PObj "Dev.TIMEOUT") (Return (Importer.CalledValue d)))
           [("ZONE", Importer.Plain (PStr "UTC"))] ∅ (<["DEBUG" := PBool true]> ∅)
           (<["DEBUG" := PBool true]> ∅) [] ["DJANGO_TIMEOUT"]
           (processing_error (with_destination_name (Some "TIMEOUT") d) (PStr "maybe") ""));
    reflexivity.
Defined.

(* ===================================================================== *)
(** * Installing the import hook *)
(* ===================================================================== *)

Section FinderFacts.

Import Finder.

Variable parse_known_args : list string -> outcome options.
Variable handle_default_options :
  options -> gmap string string -> outcome (gmap string string).
Variable version : option string.
Variable colorize : string -> string.
Variable PathFinder_find_spec : string -> pyval -> pyval -> option module_spec.

Local Abbreviation check_options :=
  (Finder.check_options parse_known_args handle_default_options).
Local Abbreviation announce := (Finder.announce version colorize).
Local Abbreviation ConfigurationFinder_init :=
  (Finder.ConfigurationFinder_init parse_known_args handle_default_options version colorize).
Local Abbreviation install :=
  (Finder.install parse_known_args handle_default_options version colorize).
Local Abbreviation find_spec := (Finder.find_spec PathFinder_find_spec).

Lemma validate_eq (s : interpreter) :
  validate s =
  match environment s !! namevar, environment s !! modvar with
  | None, _ => (Raise (improperly_configured (error_msg namevar) None), s, [namevar])
  | Some _, None =>
      (Raise (improperly_configured (error_msg modvar) None), s, [namevar; modvar])
  | Some _, Some _ => (Return tt, s, [namevar; modvar])
  end.
Proof.
  unfold validate, name, module, environ_get, bind, raise, ret.
  destruct (environment s !! namevar); [|reflexivity].
  now destruct (environment s !! modvar).
Qed.




Lemma install_installed (check : bool) (s : interpreter) :
  installed s = true -> install check s = (Return tt, s, []).
Proof. intros H. unfold Finder.install, bind, get, ret. cbv beta iota. now rewrite H. Qed.

Lemma install_fresh (check : bool) (s : interpreter) :
  installed s = false ->
  install check s =
  match ConfigurationFinder_init check (wrap_create_parser s) with
  | (Return importer, s1, l) => (Return tt, set_installed (meta_path_insert importer s1), l)
  | (Raise e, s1, l) => (Raise e, s1, l)
  end.
Proof.
  intros H. unfold Finder.install. unfold bind at 1. unfold get at 1. cbv beta iota.
  rewrite H. cbn [negb]. unfold bind at 1. unfold modify at 1. cbv beta iota.
  unfold bind at 1.
  destruct (ConfigurationFinder_init check (wrap_create_parser s)) as [[[f|e] s1] l];
    [|reflexivity].
  unfold bind, modify. cbn. now rewrite !app_nil_r.
Qed.

(** X25.  [install] works once: after an [install] that returned, a
    further [install], with or without [check_options], returns at once,
    changes nothing in the interpreter and reads no variable. *)
Theorem install_only_once (check again : bool) (s : interpreter) :
  result (install check s) = Return tt ->
  install again (self_after (install check s))
  = (Return tt, self_after (install check s), []).
Proof.
  intros H. apply install_installed.
  destruct (installed s) eqn:Hi.
  - now rewrite (install_installed check s Hi).
  - rewrite (install_fresh check s Hi) in H |- *.
    destruct (ConfigurationFinder_init check (wrap_create_parser s)) as [[[f|e] s1] l];
      [reflexivity | discriminate H].
Qed.


(** X27.  Without [check_options], a first [install] returns exactly when
    both [DJANGO_CONFIGURATION] and [DJANGO_SETTINGS_MODULE] are defined;
    it then puts the finder, with its copy of [sys.argv], in front of
    [sys.meta_path], sets [installed] and leaves the environment as it
    was.  When it raises, the exception is [ImproperlyConfigured], and it
    names [DJANGO_CONFIGURATION] if that is undefined, whether or not the
    module variable is. *)
Theorem install_needs_both_variables (s : interpreter) :
  installed s = false ->
  (result (install false s) = Return tt
   <-> is_Some (environment s !! namevar) /\ is_Some (environment s !! modvar))
  /\ (result (install false s) = Return tt ->
      sys_meta_path (self_after (install false s))
      = ConfigurationFinder (sys_argv s) :: sys_meta_path s
      /\ installed (self_after (install false s)) = true
      /\ environment (self_after (install false s)) = environment s)
  /\ (forall e, result (install false s) = Raise e ->
      e = improperly_configured
            (error_msg (if bool_decide (is_Some (environment s !! namevar))
                        then modvar else namevar)) None).
Proof.
  intros Hi. rewrite (install_fresh false s Hi).
  unfold Finder.ConfigurationFinder_init, bind, get, modify, ret.
  cbv beta iota. rewrite validate_eq.
  cbn [environment addHandler wrap_create_parser sys_argv].
  destruct (environment s !! namevar) as [n|];
    [destruct (environment s !! modvar) as [m|]|]; cbn.
  - split; [|split]; [split; eauto | auto | discriminate].
  - split; [|split]; try discriminate.
    + split; [discriminate | intros (_ & [x Hx]); discriminate Hx].
    + intros e [= <-]. reflexivity.
  - split; [|split]; try discriminate.
    + split; [discriminate | intros ([x Hx] & _); discriminate Hx].
    + intros e [= <-]. reflexivity.
Qed.

(** X28.  [check_options] exports a [--configuration] option: when the
    parser finds a non-empty one, [DJANGO_CONFIGURATION] holds it
    afterwards, whatever it held before, provided
    [handle_default_options] leaves that variable alone.  An error of
    the parser is ignored: [check_options] returns and nothing has
    changed. *)
Theorem check_options_exports_configuration (argv : list string) (s : interpreter) :
  (forall o c,
      parse_known_args (skipn 2 argv) = Return o ->
      options_configuration o = Some c -> Str.is_empty c = false ->
      (forall env env', handle_default_options o env = Return env' ->
                        env' !! namevar = env !! namevar) ->
      environment (self_after (check_options argv s)) !! namevar = Some c)
  /\ (forall e,
      parse_known_args (skipn 2 argv) = Raise e ->
      exc_isinstance e [CommandError] = true ->
      check_options argv s = (Return tt, s, [])).
Proof.
  split.
  - intros o c Hp Hc Hne Hkeep.
    unfold Finder.check_options, Importer.try_except, bind, lift, modify, get, ret, raise.
    rewrite Hp, Hc. cbn [truthy_name text_of]. rewrite Hne. cbn [negb].
    cbn [environment with_environment].
    destruct (handle_default_options o _) as [env|e] eqn:Hh.
    + cbn. rewrite (Hkeep _ _ Hh). apply lookup_insert_eq.
    + destruct (exc_isinstance e _); cbn; apply lookup_insert_eq.
  - intros e Hp He.
    unfold Finder.check_options, Importer.try_except, bind, lift, ret.
    now rewrite Hp, He.
Qed.

(** X29.  The finder answers for the settings module only, and changes
    nothing: a spec comes back only for the module that
    [DJANGO_SETTINGS_MODULE] names at that moment and that [PathFinder]
    finds, and its loader is the one [PathFinder] gave, wrapped for the
    class that [DJANGO_CONFIGURATION] names at that moment.  For every
    other module [PathFinder] is not consulted and [find_spec] returns
    [None]. *)
Theorem find_spec_only_settings_module (fullname : option string) (path target : pyval)
    (s : interpreter) :
  self_after (find_spec fullname path target s) = s
  /\ (forall spec,
      result (find_spec fullname path target s) = Return (Some spec) ->
      exists fn found,
        fullname = Some fn
        /\ environment s !! modvar = Some fn
        /\ PathFinder_find_spec fn path target = Some found
        /\ spec_name spec = spec_name found
        /\ spec_loader spec
           = ConfigurationLoader (environment s !! namevar) (spec_loader found))
  /\ (fullname <> environment s !! modvar \/ fullname = None ->
      result (find_spec fullname path target s) = Return None).
Proof.
  unfold Finder.find_spec, module, name, environ_get, bind, ret.
  destruct fullname as [fn|]; cbn.
  - destruct (bool_decide_reflect (environment s !! modvar = Some fn)) as [Hm|Hm].
    + destruct (PathFinder_find_spec fn path target) as [found|] eqn:Hf; cbn.
      * split; [reflexivity|]. split.
        -- intros spec [= <-]. exists fn, found. auto.
        -- intros [H | H]; [now destruct H | discriminate H].
      * split; [reflexivity|]. split; [discriminate | reflexivity].
    + cbn. split; [reflexivity|]. split; [discriminate | reflexivity].
  - split; [reflexivity|]. split; [discriminate | reflexivity].
Qed.

End FinderFacts.

Lemma install_only_once_witness :
  let s := Finder.fresh [("DJANGO_CONFIGURATION", "Dev");
                         ("DJANGO_SETTINGS_MODULE", "mysite.settings")]
             ["manage.py"; "runserver"] in
  let install := Finder.install Finder.sample_parse Finder.sample_handle None
                   (fun t => t) in
  install true (self_after (install false s))
  = (Return tt, self_after (install false s), []).
Proof.
  intros s install.
  apply (install_only_once Finder.sample_parse Finder.sample_handle None (fun t => t)
           false true s).
  reflexivity.
Defined.


Lemma install_needs_both_variables_witness :
  let s := Finder.fresh [("DJANGO_CONFIGURATION", "Dev");
                         ("DJANGO_SETTINGS_MODULE", "mysite.settings")]
             ["manage.py"; "runserver"] in
  Finder.sys_meta_path
    (self_after (Finder.install Finder.sample_parse Finder.sample_handle None
                   (fun t => t) false s))
  = [Finder.ConfigurationFinder ["manage.py"; "runserver"]; Finder.OtherFinder "PathFinder"].
Proof.
  intros s.
  destruct (install_needs_both_variables Finder.sample_parse Finder.sample_handle None
              (fun t => t) s eq_refl) as (_ & H & _).
  destruct (H eq_refl) as (Hm & _). exact Hm.
Defined.

Lemma check_options_exports_configuration_witness :
  let argv := ["manage.py"; "runserver"; "--configuration"; "Prod"] in
  let s := Finder.fresh [("DJANGO_CONFIGURATION", "Dev")] argv in
  Finder.environment
    (self_after (Finder.check_options Finder.sample_parse Finder.sample_handle argv s))
    !! Finder.namevar
  = Some "Prod".
Proof.
  intros argv s.
  destruct (check_options_exports_configuration Finder.sample_parse Finder.sample_handle
              argv s) as (H & _).
  apply (H (Finder.Build_options (Some "Prod") None None) "Prod"); try reflexivity.
  intros env env' [= <-]. reflexivity.
Defined.

Lemma find_spec_only_settings_module_witness :
  let s := Finder.fresh [("DJANGO_CONFIGURATION", "Dev");
                         ("DJANGO_SETTINGS_MODULE", "mysite.settings")] ["manage.py"] in
  result (Finder.find_spec Finder.sample_find (Some "mysite.urls") PNone PNone s)
  = Return None.
Proof.
  intros s.
  destruct (find_spec_only_settings_module Finder.sample_find (Some "mysite.urls")
              PNone PNone s) as (_ & _ & H).
  apply H. left. discriminate.
Defined.
